(** * ydkmaker2: from a typed deck list to a YDK file

    A shallow embedding of [ydkmaker2.py] and the properties of its
    components: the identifier resolver ([get_card_id]), the line parser
    ([parse_deck_list]), the file writer ([write_ydk_file]) and the command
    line ([main]).

    - Python text is a [string]; a character is one of the code points
      0..255, and the classification functions of [PyChar] are Python's
      [str] predicates on that range.
    - An exception is a value: fallible code returns a [result].
    - The network and the files are explicit states: a request takes the
      state of the network and returns the next one, [write_ydk_file] takes
      the files and returns the files.  What is printed on the console is
      left out.

    The model comes first, then the vocabulary of the statements, then the
    properties. *)

(** * The model *)

From Stdlib Require Import Bool Arith ZArith NArith List Lia.
From Stdlib Require Import Ascii String DecimalString.
Import ListNotations.

Local Open Scope string_scope.
Local Open Scope Z_scope.

(** ** Characters *)

Module PyChar.

Definition code (c : ascii) : N := N_of_ascii c.

(** [str.isspace] on one character, which is also what [\s] accepts in a
    [str] pattern and what [str.strip()] removes: TAB, LF, VT, FF, CR,
    FS, GS, RS, US, SPACE, NEL and NBSP. *)
Definition isspace (c : ascii) : bool :=
  let n := code c in
  (((9 <=? n) && (n <=? 13)) || ((28 <=? n) && (n <=? 32))
   || (n =? 133) || (n =? 160))%N.

(** [\d] in a [str] pattern: the decimal digits. *)
Definition isdigit (c : ascii) : bool :=
  let n := code c in ((48 <=? n) && (n <=? 57))%N.

(** The line boundaries of [str.splitlines]: LF, VT, FF, CR, FS, GS, RS
    and NEL. *)
Definition islinebreak (c : ascii) : bool :=
  let n := code c in
  (((10 <=? n) && (n <=? 13)) || ((28 <=? n) && (n <=? 30)) || (n =? 133))%N.

Definition is_lf (c : ascii) : bool := (code c =? 10)%N.
Definition is_cr (c : ascii) : bool := (code c =? 13)%N.

(** [.] without [re.DOTALL]: anything but LF. *)
Definition isdot (c : ascii) : bool := negb (is_lf c).

(** The class [[xX]]. *)
Definition is_xX (c : ascii) : bool :=
  let n := code c in ((n =? 120) || (n =? 88))%N.

(** [str.lower] on one character: A-Z, and the upper-case letters of the
    range 192..222 (all but the multiplication sign 215), move up by 32. *)
Definition lower (c : ascii) : ascii :=
  let n := code c in
  if (((65 <=? n) && (n <=? 90))
      || ((192 <=? n) && (n <=? 222) && negb (n =? 215)))%N
  then ascii_of_N (n + 32) else c.

Definition digit_value (c : ascii) : Z := Z.of_N (code c) - 48.

End PyChar.

(** ** Strings *)

Module PyStr.

Definition LF : string := String (ascii_of_N 10) EmptyString.

Fixpoint forallb (p : ascii -> bool) (s : string) : bool :=
  match s with
  | EmptyString => true
  | String c s' => p c && forallb p s'
  end.

Definition is_empty (s : string) : bool :=
  match s with EmptyString => true | String _ _ => false end.

(** Truth value of a [str]: non-empty. *)
Definition truthy (s : string) : bool := negb (is_empty s).

Fixpoint lower (s : string) : string :=
  match s with
  | EmptyString => EmptyString
  | String c s' => String (PyChar.lower c) (lower s')
  end.

Fixpoint lstrip (s : string) : string :=
  match s with
  | EmptyString => EmptyString
  | String c s' => if PyChar.isspace c then lstrip s' else s
  end.

Fixpoint rstrip (s : string) : string :=
  match s with
  | EmptyString => EmptyString
  | String c s' =>
      let r := rstrip s' in
      if is_empty r && PyChar.isspace c then EmptyString else String c r
  end.

(** [s.strip()] *)
Definition strip (s : string) : string := rstrip (lstrip s).

(** [sep.join(l)] *)
Fixpoint join (sep : string) (l : list string) : string :=
  match l with
  | [] => EmptyString
  | [x] => x
  | x :: l' => x ++ sep ++ join sep l'
  end.

Fixpoint rev_onto (s acc : string) : string :=
  match s with
  | EmptyString => acc
  | String c s' => rev_onto s' (String c acc)
  end.

Definition rev (s : string) : string := rev_onto s EmptyString.

(** [s.startswith(prefix)] *)
Fixpoint startswith (s prefix : string) {struct prefix} : bool :=
  match prefix with
  | EmptyString => true
  | String a prefix' =>
      match s with
      | EmptyString => false
      | String b s' => Ascii.eqb a b && startswith s' prefix'
      end
  end.

(** [s.endswith(suffix)] *)
Definition endswith (s suffix : string) : bool :=
  startswith (rev s) (rev suffix).

(** [s.splitlines()]: the lines of [s] without their line boundaries; CR
    LF counts as one boundary, and a boundary at the very end opens no
    further line. *)
Fixpoint splitlines (s : string) : list string :=
  match s with
  | EmptyString => []
  | String c s' =>
      if PyChar.islinebreak c then
        EmptyString ::
          (if PyChar.is_cr c then
             match s' with
             | String c' s'' =>
                 if PyChar.is_lf c' then splitlines s'' else splitlines s'
             | EmptyString => []
             end
           else splitlines s')
      else
        match splitlines s' with
        | [] => [String c EmptyString]
        | l :: ls => String c l :: ls
        end
  end.

End PyStr.

(** ** Exceptions *)

Inductive exn : Set :=
| ValueError | TypeError | KeyError | IndexError | AttributeError | EOFError
| OSError
| RequestException | JSONDecodeError.

Inductive result (A : Type) : Type :=
| Ok (a : A)
| Raise (e : exn).
Arguments Ok {A} a.
Arguments Raise {A} e.

Definition bind {A B} (m : result A) (f : A -> result B) : result B :=
  match m with
  | Ok a => f a
  | Raise e => Raise e
  end.

Notation "x <- m ;; k" := (bind m (fun x => k))
  (at level 61, m at next level, right associativity).

(** ** Regular expressions

    A backtracking matcher with the priorities of Python's [re]: a greedy
    repetition tries the longest run first and gives characters back one at
    a time, an optional part is tried present before absent, an alternation
    tries its left branch first, and the first complete match wins.  The
    continuation [k] stands for the rest of the pattern. *)

Module Re.

Inductive regex : Type :=
| Bol                                   (* ^ *)
| Eol                                   (* $ *)
| Chr (p : ascii -> bool)               (* one character of a class *)
| Rep (lo : nat) (p : ascii -> bool)    (* class{lo,}, greedy *)
| Opt (r : regex)                       (* r?, greedy *)
| Seq (r1 r2 : regex)
| Alt (r1 r2 : regex)
| Grp (i : nat) (r : regex).            (* capturing group number i *)

(** The text captured by each group that took part in the match, most
    recent first. *)
Definition groups : Type := list (nat * string).

Fixpoint group (g : groups) (i : nat) : option string :=
  match g with
  | [] => None
  | (j, s) :: g' => if Nat.eqb i j then Some s else group g' i
  end.

(** What was consumed between the remaining input [s] and the later
    remaining input [s']. *)
Definition consumed (s s' : string) : string :=
  String.substring 0 (String.length s - String.length s') s.

Fixpoint rep (p : ascii -> bool) (lo : nat) (s : string)
         (k : string -> option groups) : option groups :=
  let stop := if Nat.eqb lo 0 then k s else None in
  match s with
  | EmptyString => stop
  | String c s' =>
      if p c then
        match rep p (Nat.pred lo) s' k with
        | Some g => Some g
        | None => stop
        end
      else stop
  end.

Section Run.

Variable subject : string.

Fixpoint run (r : regex) (s : string) (g : groups)
         (k : string -> groups -> option groups) : option groups :=
  match r with
  | Bol =>
      if Nat.eqb (String.length s) (String.length subject)
      then k s g else None
  | Eol =>
      if PyStr.is_empty s || String.eqb s PyStr.LF then k s g else None
  | Chr p =>
      match s with
      | String c s' => if p c then k s' g else None
      | EmptyString => None
      end
  | Rep lo p => rep p lo s (fun s' => k s' g)
  | Opt r1 =>
      match run r1 s g k with
      | Some m => Some m
      | None => k s g
      end
  | Seq r1 r2 => run r1 s g (fun s' g' => run r2 s' g' k)
  | Alt r1 r2 =>
      match run r1 s g k with
      | Some m => Some m
      | None => run r2 s g k
      end
  | Grp i r1 =>
      run r1 s g (fun s' g' => k s' ((i, consumed s s') :: g'))
  end.

End Run.

(** [pattern.match(subject)]: a match anchored at the start of the
    subject; [None] when there is none. *)
Definition re_match (r : regex) (subject : string) : option groups :=
  run subject r subject [] (fun _ g => Some g).

End Re.

Import Re.

Infix ";;;" := Seq (at level 62, right associativity).

(** [card_regex]: the compiled pattern of [parse_deck_list].  Between [^]
    and [$] it is a non-capturing alternation followed by group 3, [(.+)]:
    - left branch: [\s*], group 1 [(\d+)], [[xX]?], [\s*];
    - right branch: [\s*], [[xX]], group 2 [(\d+)], [\s*]. *)
Definition card_regex : regex :=
  Bol ;;;
  Alt (Rep 0 PyChar.isspace ;;; Grp 1 (Rep 1 PyChar.isdigit) ;;;
       Opt (Chr PyChar.is_xX) ;;; Rep 0 PyChar.isspace)
      (Rep 0 PyChar.isspace ;;; Chr PyChar.is_xX ;;;
       Grp 2 (Rep 1 PyChar.isdigit) ;;; Rep 0 PyChar.isspace) ;;;
  Grp 3 (Rep 1 PyChar.isdot) ;;;
  Eol.

(** ** Integers *)

Fixpoint int_digits (acc : Z) (s : string) : option Z :=
  match s with
  | EmptyString => Some acc
  | String c s' =>
      if PyChar.isdigit c
      then int_digits (10 * acc + PyChar.digit_value c) s'
      else None
  end.

(** The most digits that [int] reads from a text: the setting of an
    interpreter started with its defaults
    ([sys.int_info.default_max_str_digits]). *)
Definition int_max_str_digits : Z := 4300.

(** [int(x)] for [x] a [str] or [None].  [None] raises [TypeError].  A
    non-empty string of digits gives its value when it has no more digits
    than [int_max_str_digits], leading zeros counted, and raises
    [ValueError] when it has more.  Any other text is taken to raise
    [ValueError] (the signs, underscores and surrounding blanks that [int]
    also reads are left out; [parse_deck_list] passes none). *)
Definition py_int (x : option string) : result Z :=
  match x with
  | None => Raise TypeError
  | Some EmptyString => Raise ValueError
  | Some s =>
      match int_digits 0 s with
      | Some z =>
          if Z.of_nat (String.length s) <=? int_max_str_digits
          then Ok z
          else Raise ValueError
      | None => Raise ValueError
      end
  end.

(** [a or b] on optional strings: [a] when it is neither [None] nor empty. *)
Definition py_or (a b : option string) : option string :=
  match a with
  | Some s => if PyStr.truthy s then a else b
  | None => b
  end.


(** ** The identifier resolver *)

(** A decoded JSON document, as [response.json()] returns it.  A float
    carries its [repr]; a [dict] lists its items, each key once. *)
#[local] Unset Elimination Schemes.
Inductive pyval : Type :=
| PNone
| PBool (b : bool)
| PInt (z : Z)
| PFloat (repr : string)
| PStr (s : string)
| PList (l : list pyval)
| PDict (items : list (string * pyval)).
#[local] Set Elimination Schemes.

(** The value of the key [k] among the items of a [dict]. *)
Fixpoint dict_get (items : list (string * pyval)) (k : string) : option pyval :=
  match items with
  | [] => None
  | (k', v) :: items' => if String.eqb k k' then Some v else dict_get items' k
  end.

(** [v[k]] for a string key [k]. *)
Definition getitem_key (v : pyval) (k : string) : result pyval :=
  match v with
  | PDict items =>
      match dict_get items k with
      | Some x => Ok x
      | None => Raise KeyError
      end
  | _ => Raise TypeError
  end.

(** [v[0]].  The keys of a decoded JSON object are strings, so [0] is never
    one of them. *)
Definition getitem_0 (v : pyval) : result pyval :=
  match v with
  | PList (x :: _) => Ok x
  | PList [] => Raise IndexError
  | PStr (String c _) => Ok (PStr (String c EmptyString))
  | PStr EmptyString => Raise IndexError
  | PDict _ => Raise KeyError
  | _ => Raise TypeError
  end.

(** What [requests.get(url)] does: it raises (no connection, a timeout, a
    malformed URL, ...), or it returns a response with a status code and a
    body; [json] is what [response.json()] would return or raise. *)
Inductive http_outcome : Type :=
| GetRaises
| Response (status_code : Z) (json : result pyval).

Definition api_url : string :=
  "https://db.ygoprodeck.com/api/v7/cardinfo.php?name=".

(** The URL that [get_card_id] builds; an empty or absent format adds
    nothing. *)
Definition lookup_url (card_name : string) (format_name : option string)
  : string :=
  let url := api_url ++ card_name in
  match format_name with
  | Some f => if PyStr.truthy f then url ++ "&format=" ++ f else url
  | None => url
  end.

Section Resolver.

(** The network is an external state: a request answers and moves it. *)
Context {World : Type}.
Variable requests_get : string -> World -> http_outcome * World.

(** [repr] of a list or a dict, which [str] returns for them. *)
Variable repr_container : pyval -> string.

Definition py_str (v : pyval) : string :=
  match v with
  | PNone => "None"
  | PBool true => "True"
  | PBool false => "False"
  | PInt z => NilEmpty.string_of_int (Z.to_int z)
  | PFloat r => r
  | PStr s => s
  | PList _ | PDict _ => repr_container v
  end.

(** The body of the [try] block of [get_card_id]. *)
Definition get_card_id_try (card_name : string)
           (format_name : option string) (w : World)
  : result (option string) * World :=
  let url := lookup_url card_name format_name in
  let (o, w') := requests_get url w in
  (match o with
   | GetRaises => Raise RequestException
   | Response status_code json =>
       if status_code =? 200 then
         data <- json ;;
         d <- getitem_key data "data" ;;
         x <- getitem_0 d ;;
         i <- getitem_key x "id" ;;
         Ok (Some (py_str i))
       else Ok None
   end, w').

(** [get_card_id(card_name, format_name)]: [except Exception] turns every
    exception of the body into [None].  The messages printed on the
    console are left out. *)
Definition get_card_id (card_name : string) (format_name : option string)
           (w : World) : option string * World :=
  let (r, w') := get_card_id_try card_name format_name w in
  (match r with
   | Ok v => v
   | Raise _ => None
   end, w').

End Resolver.

(** ** The line parser *)

Inductive section : Set := Main | Extra | Side.

Definition section_eq_dec (a b : section) : {a = b} + {a <> b}.
Proof. decide equality. Defined.

Record parser_state : Type := mkState {
  main_deck : list string;
  extra_deck : list string;
  side_deck : list string;
  current_section : section
}.

Definition initial_state : parser_state := mkState [] [] [] Main.

Definition set_section (sec : section) (st : parser_state) : parser_state :=
  mkState (main_deck st) (extra_deck st) (side_deck st) sec.

(** One turn of the loop [for _ in range(quantity)]. *)
Definition append_card (card_id : string) (st : parser_state) : parser_state :=
  match current_section st with
  | Main =>
      mkState (main_deck st ++ [card_id]) (extra_deck st) (side_deck st) Main
  | Extra =>
      mkState (main_deck st) (extra_deck st ++ [card_id]) (side_deck st) Extra
  | Side =>
      mkState (main_deck st) (extra_deck st) (side_deck st ++ [card_id]) Side
  end.

(** The deck of a section. *)
Definition deck_of (sec : section) (st : parser_state) : list string :=
  match sec with
  | Main => main_deck st
  | Extra => extra_deck st
  | Side => side_deck st
  end.

(** The lines 49-52 of [parse_deck_list], on a trimmed line: [None] when
    the pattern does not match; otherwise the quantity, [int] of group 1 or
    else group 2, and the card name, group 3 trimmed. *)
Definition card_fields (line : string) : option (result (Z * string)) :=
  match re_match card_regex line with
  | None => None
  | Some m =>
      Some (quantity <- py_int (py_or (group m 1) (group m 2)) ;;
            match group m 3 with
            | None => Raise AttributeError
            | Some name => Ok (quantity, PyStr.strip name)
            end)
  end.

Section Parser.

Context {World : Type}.

(** The function bound to the global name [get_card_id] when
    [parse_deck_list] runs. *)
Variable resolve : string -> option string -> World -> option string * World.

Variable format_name : option string.

(** The body of the loop over the lines. *)
Definition process_line (st : parser_state) (raw : string) (w : World)
  : result parser_state * World :=
  let line := PyStr.strip raw in
  if PyStr.is_empty line then (Ok st, w)
  else if String.eqb (PyStr.lower line) "#main" then
    (Ok (set_section Main st), w)
  else if String.eqb (PyStr.lower line) "#extra" then
    (Ok (set_section Extra st), w)
  else if String.eqb (PyStr.lower line) "#side" then
    (Ok (set_section Side st), w)
  else
    match card_fields line with
    | None => (Ok st, w)
    | Some (Raise e) => (Raise e, w)
    | Some (Ok (quantity, card_name)) =>
        let (card_id, w') := resolve card_name format_name w in
        (Ok match card_id with
            | Some id =>
                if PyStr.truthy id
                then Nat.iter (Z.to_nat quantity) (append_card id) st
                else st
            | None => st
            end, w')
    end.

Fixpoint parse_lines (lines : list string) (st : parser_state) (w : World)
  : result parser_state * World :=
  match lines with
  | [] => (Ok st, w)
  | raw :: lines' =>
      match process_line st raw w with
      | (Ok st', w') => parse_lines lines' st' w'
      | (Raise e, w') => (Raise e, w')
      end
  end.

(** [parse_deck_list(deck_list, format_name)] *)
Definition parse_deck_list (deck_list : string) (w : World)
  : result (list string * list string * list string) * World :=
  match parse_lines (PyStr.splitlines deck_list) initial_state w with
  | (Ok st, w') => (Ok (main_deck st, extra_deck st, side_deck st), w')
  | (Raise e, w') => (Raise e, w')
  end.

End Parser.

(** ** The file writer *)

(** The arguments of the successive [file.write] calls of
    [write_ydk_file]. *)
Definition ydk_writes (main_deck extra_deck side_deck : list string)
  : list string :=
  ["#main" ++ PyStr.LF; PyStr.join PyStr.LF main_deck ++ PyStr.LF]
  ++ (match extra_deck with
      | [] => []
      | _ :: _ =>
          [PyStr.LF ++ "#extra" ++ PyStr.LF;
           PyStr.join PyStr.LF extra_deck ++ PyStr.LF]
      end)
  ++ (match side_deck with
      | [] => []
      | _ :: _ =>
          [PyStr.LF ++ "!side" ++ PyStr.LF;
           PyStr.join PyStr.LF side_deck ++ PyStr.LF]
      end).

(** The text of the file once it is closed: the writes, one after the
    other. *)
Definition ydk_text (main_deck extra_deck side_deck : list string) : string :=
  String.concat EmptyString (ydk_writes main_deck extra_deck side_deck).

(** The files, by path, and the paths that [open(path, "w")] accepts. *)
Record filesystem : Type := mkFs {
  file : string -> option string;
  can_write : string -> bool
}.

(** The files after [text] has been written at [path]. *)
Definition store (path text : string) (fs : filesystem) : filesystem :=
  mkFs (fun p => if String.eqb p path then Some text else file fs p)
       (can_write fs).

(** [write_ydk_file(output_path, main_deck, extra_deck, side_deck)]: the
    file is created or truncated, and holds the writes when the [with] block
    ends; [open] raises [OSError] on a path it cannot write. *)
Definition write_ydk_file (output_path : string)
           (main_deck extra_deck side_deck : list string) (fs : filesystem)
  : result filesystem :=
  if can_write fs output_path
  then Ok (store output_path (ydk_text main_deck extra_deck side_deck) fs)
  else Raise OSError.

(** ** The command line *)

(** The lines 108-110 of [main]: the name typed by the user, trimmed, with
    the extension added when the name does not end with it. *)
Definition output_file_name (typed : string) : string :=
  let file_name := PyStr.strip typed in
  if negb (PyStr.endswith file_name ".ydk")
  then file_name ++ ".ydk"
  else file_name.

(** The [while True] loop of [main]: the lines typed before the first line
    that reads [done] once trimmed and lowered, and the lines that follow
    it; [input()] raises [EOFError] when the input ends first. *)
Fixpoint read_deck_list (stdin deck_list : list string)
  : result (list string * list string) :=
  match stdin with
  | [] => Raise EOFError
  | line :: stdin' =>
      if String.eqb (PyStr.lower (PyStr.strip line)) "done"
      then Ok (deck_list, stdin')
      else read_deck_list stdin' (deck_list ++ [line])
  end.

Section Main.

Context {World : Type}.
Variable requests_get : string -> World -> http_outcome * World.
Variable repr_container : pyval -> string.

(** [os.path.abspath], which depends on the working directory. *)
Variable abspath : string -> string.

(** [main()], on the lines that [input()] returns in turn.  The result is
    the path of the file written and the new state of the files. *)
Definition main (stdin : list string) (w : World) (fs : filesystem)
  : result (string * filesystem) * World :=
  match stdin with
  | [] => (Raise EOFError, w)
  | typed_format :: stdin1 =>
      let format_name := PyStr.strip typed_format in
      match read_deck_list stdin1 [] with
      | Raise e => (Raise e, w)
      | Ok (lines, stdin2) =>
          let deck_list := PyStr.join PyStr.LF lines in
          match stdin2 with
          | [] => (Raise EOFError, w)
          | typed_name :: _ =>
              let file_name := output_file_name typed_name in
              match parse_deck_list (get_card_id requests_get repr_container)
                      (Some format_name) deck_list w with
              | (Raise e, w') => (Raise e, w')
              | (Ok (main_deck, extra_deck, side_deck), w') =>
                  let output_path := abspath file_name in
                  (fs' <- write_ydk_file output_path
                            main_deck extra_deck side_deck fs ;;
                   Ok (output_path, fs'), w')
              end
          end
      end
  end.

End Main.

(** * Vocabulary of the statements *)

(** ** Strings *)

(** [s] ends with [suffix]. *)
Definition ends_with (s suffix : string) : Prop := exists p, s = p ++ suffix.

(** ** The matcher *)

(** [b] does not start with a character of the class [p]. *)
Definition stops (p : ascii -> bool) (b : string) : Prop :=
  match b with
  | EmptyString => True
  | String d _ => p d = false
  end.

(** The first character of a line that the pattern can match. *)
Definition opener (line : string) : bool :=
  match line with
  | EmptyString => false
  | String c _ => PyChar.isspace c || PyChar.isdigit c || PyChar.is_xX c
  end.

(** What remains to match after the alternation: group 3 and [$]. *)
Definition name_and_end (s : string) (g : groups) : option groups :=
  rep PyChar.isdot 1 s
      (fun s' =>
         if PyStr.is_empty s' || String.eqb s' PyStr.LF
         then Some ((3%nat, consumed s s') :: g) else None).

(** A one followed by [k] zeros. *)
Definition power_of_ten_digits (k : nat) : string :=
  String "1" (Nat.iter k (String "0") "").

(** ** The decks *)

(** Every deck of [st'] starts with the deck of [st] of the same section. *)
Definition extends (st st' : parser_state) : Prop :=
  forall sec, exists later, deck_of sec st' = (deck_of sec st ++ later)%list.

(** The identifiers [ids] added in turn to the deck of the current
    section. *)
Definition add_cards (ids : list string) (st : parser_state) : parser_state :=
  fold_left (fun st id => append_card id st) ids st.

(** ** The answers of the card database *)

(** The value is a [dict]; the value is a [list]. *)
Definition is_dict (v : pyval) : bool :=
  match v with PDict _ => true | _ => false end.

Definition is_list (v : pyval) : bool :=
  match v with PList _ => true | _ => false end.

(** The ways a lookup fails: the request raises; the status is not 200;
    the body is no JSON; the document is no object; it has no result set; the
    result set is empty; the result set is no list; its first match is no
    object; the first match has no identifier. *)
Inductive lookup_failure : http_outcome -> Prop :=
| network_error :
    lookup_failure GetRaises
| status_not_200 (status_code : Z) (json : result pyval) :
    status_code <> 200 -> lookup_failure (Response status_code json)
| body_not_json (e : exn) :
    lookup_failure (Response 200 (Raise e))
| document_not_object (doc : pyval) :
    is_dict doc = false -> lookup_failure (Response 200 (Ok doc))
| result_set_absent (items : list (string * pyval)) :
    dict_get items "data" = None ->
    lookup_failure (Response 200 (Ok (PDict items)))
| result_set_empty (items : list (string * pyval)) :
    dict_get items "data" = Some (PList []) ->
    lookup_failure (Response 200 (Ok (PDict items)))
| result_set_not_list (items : list (string * pyval)) (data : pyval) :
    dict_get items "data" = Some data -> is_list data = false ->
    lookup_failure (Response 200 (Ok (PDict items)))
| first_match_not_object (items : list (string * pyval)) (first : pyval)
                         (others : list pyval) :
    dict_get items "data" = Some (PList (first :: others)) ->
    is_dict first = false ->
    lookup_failure (Response 200 (Ok (PDict items)))
| identifier_absent (items fields : list (string * pyval))
                    (others : list pyval) :
    dict_get items "data" = Some (PList (PDict fields :: others)) ->
    dict_get fields "id" = None ->
    lookup_failure (Response 200 (Ok (PDict items))).

(** The answer carries the value [id] as the identifier of its first
    match. *)
Definition lookup_finds (o : http_outcome) (id : pyval) : Prop :=
  exists items fields others,
    o = Response 200 (Ok (PDict items))
    /\ dict_get items "data" = Some (PList (PDict fields :: others))
    /\ dict_get fields "id" = Some id.

(** ** The layout of the file *)

(** The text after the main block: the extra block and the side block,
    each only for a deck that is not empty. *)
Definition optional_blocks (extra_deck side_deck : list string) : string :=
  (match extra_deck with
   | [] => ""
   | _ :: _ =>
       PyStr.LF ++ "#extra" ++ PyStr.LF
       ++ PyStr.join PyStr.LF extra_deck ++ PyStr.LF
   end)
  ++ (match side_deck with
      | [] => ""
      | _ :: _ =>
          PyStr.LF ++ "!side" ++ PyStr.LF
          ++ PyStr.join PyStr.LF side_deck ++ PyStr.LF
      end).

(** A line that can stand for an identifier in the file: it is not empty,
    holds no line boundary, and starts with neither marker. *)
Definition plain_line (s : string) : bool :=
  PyStr.forallb (fun c => negb (PyChar.islinebreak c)) s
  && match s with
     | EmptyString => false
     | String c _ => negb (Ascii.eqb c "#") && negb (Ascii.eqb c "!")
     end.

(** The lines of the main block: the identifiers, or one empty line when
    there is none. *)
Definition main_lines (deck : list string) : list string :=
  match deck with
  | [] => [""]
  | _ :: _ => deck
  end.

(** The lines of an optional block: an empty line, the header and the
    identifiers. *)
Definition block_lines (header : string) (deck : list string) : list string :=
  match deck with
  | [] => []
  | _ :: _ => "" :: header :: deck
  end.

(** The section that a header line of the file opens. *)
Definition ydk_header (line : string) : option section :=
  if String.eqb line "#main" then Some Main
  else if String.eqb line "#extra" then Some Extra
  else if String.eqb line "!side" then Some Side
  else None.

(** Reading the lines of a file back: an empty line is skipped, a header
    opens its section, and any other line is an identifier of the section
    that is open. *)
Fixpoint read_lines (lines : list string) (st : parser_state) : parser_state :=
  match lines with
  | [] => st
  | line :: lines' =>
      read_lines lines'
        (if PyStr.is_empty line then st
         else match ydk_header line with
              | Some sec => set_section sec st
              | None => append_card line st
              end)
  end.

(** The three decks that a file lists.  The program has no reader for the
    files it writes; this one follows the layout of [write_ydk_file]. *)
Definition read_ydk (text : string) : list string * list string * list string :=
  let st := read_lines (PyStr.splitlines text) initial_state in
  (main_deck st, extra_deck st, side_deck st).

(** ** Stubs for the examples *)

(** A resolver that knows two cards and asks no network for them. *)
Definition stub_resolver (card_name : string) (format_name : option string)
           (w : unit) : option string * unit :=
  (if String.eqb card_name "Pot of Greed" then Some "55144522"
   else if String.eqb card_name "Monster Reborn" then Some "83764719"
   else None,
   w).

(** A card database whose first match carries no number as identifier,
    but [null]. *)
Definition null_id_network (url : string) (w : unit) : http_outcome * unit :=
  (Response 200 (Ok (PDict [("data", PList [PDict [("id", PNone)]])])), w).

(** A network on which every request raises. *)
Definition unreachable_network (url : string) (w : unit) : http_outcome * unit :=
  (GetRaises, w).

(** A card database that knows two cards. *)
Definition two_card_network (url : string) (w : unit) : http_outcome * unit :=
  let found id :=
    Response 200 (Ok (PDict [("data", PList [PDict [("id", PInt id)]])])) in
  (if String.eqb url (api_url ++ "Pot of Greed") then found 55144522
   else if String.eqb url (api_url ++ "Monster Reborn") then found 83764719
   else Response 400 (Ok (PDict [("error", PStr "No card matching")])),
   w).

(** Files that can all be written, none of them there yet. *)
Definition empty_filesystem : filesystem :=
  mkFs (fun _ => None) (fun _ => true).

(** ** The two branches of the pattern *)

(** What remains to match after the blanks that follow the quantity: the
    blanks themselves, then group 3 and [$]. *)
Definition after_spaces (g : groups) (s : string) : option groups :=
  rep PyChar.isspace 0 s (fun s' => name_and_end s' g).

(** What remains to match after group 1: the optional marker, tried
    present before absent, and the rest. *)
Definition after_digits (g : groups) (s : string) : option groups :=
  match
    match s with
    | String c s' => if PyChar.is_xX c then after_spaces g s' else None
    | EmptyString => None
    end
  with
  | Some m => Some m
  | None => after_spaces g s
  end.

(** The left branch of the alternation, with all that follows it: blanks,
    group 1, the optional marker, blanks, the name. *)
Definition left_branch (line : string) : option groups :=
  rep PyChar.isspace 0 line
      (fun s1 =>
         rep PyChar.isdigit 1 s1
             (fun s2 => after_digits [(1%nat, consumed s1 s2)] s2)).

(** The right branch, with all that follows it: blanks, the marker, group
    2, blanks, the name. *)
Definition right_branch (line : string) : option groups :=
  rep PyChar.isspace 0 line
      (fun s1 =>
         match s1 with
         | String c s1' =>
             if PyChar.is_xX c
             then rep PyChar.isdigit 1 s1'
                      (fun s2 => after_spaces [(2%nat, consumed s1' s2)] s2)
             else None
         | EmptyString => None
         end).

(** ** The lines of a deck list *)

(** The header that makes a section the current one. *)
Definition parser_header (sec : section) : string :=
  match sec with
  | Main => "#main"
  | Extra => "#extra"
  | Side => "#side"
  end.

(** The card names of the card lines among [lines], in their order. *)
Definition card_names (lines : list string) : list string :=
  flat_map (fun raw =>
              match card_fields (PyStr.strip raw) with
              | Some (Ok (_, card_name)) => [card_name]
              | _ => []
              end) lines.

(** A network that answers by the URL alone and keeps the list of the URLs
    requested so far. *)
Definition logged_network (answer : string -> http_outcome)
           (url : string) (log : list string) : http_outcome * list string :=
  (answer url, (log ++ [url])%list).

(** * Properties *)

(** ** Strings *)

Lemma append_nil_r (s : string) : s ++ "" = s.
Proof. induction s as [|c s IH]; simpl; [reflexivity | now rewrite IH]. Qed.

Lemma append_assoc (a b c : string) : (a ++ b) ++ c = a ++ b ++ c.
Proof. induction a as [|x a IH]; simpl; [reflexivity | now rewrite IH]. Qed.

Lemma length_append (a b : string) :
  String.length (a ++ b) = (String.length a + String.length b)%nat.
Proof. induction a as [|x a IH]; simpl; [reflexivity | now rewrite IH]. Qed.

Lemma rev_onto_append (s acc : string) :
  PyStr.rev_onto s acc = PyStr.rev s ++ acc.
Proof.
  unfold PyStr.rev. revert acc.
  induction s as [|c s IH]; intro acc; simpl; [reflexivity|].
  rewrite (IH (String c "")), IH, append_assoc. reflexivity.
Qed.

Lemma rev_append (a b : string) :
  PyStr.rev (a ++ b) = PyStr.rev b ++ PyStr.rev a.
Proof.
  induction a as [|c a IH]; simpl.
  - now rewrite append_nil_r.
  - unfold PyStr.rev in *. simpl.
    rewrite (rev_onto_append (a ++ b)), (rev_onto_append a).
    unfold PyStr.rev. rewrite IH, append_assoc. reflexivity.
Qed.

Lemma rev_involutive (s : string) : PyStr.rev (PyStr.rev s) = s.
Proof.
  induction s as [|c s IH]; [reflexivity|].
  change (String c s) with (String c "" ++ s) at 1.
  rewrite rev_append, rev_append, IH. reflexivity.
Qed.

Lemma startswith_iff (s p : string) :
  PyStr.startswith s p = true <-> exists t, s = p ++ t.
Proof.
  revert s. induction p as [|c p IH]; intro s; simpl.
  - split; [intros _; now exists s | reflexivity].
  - destruct s as [|d s].
    + split; [discriminate | intros [t Ht]; discriminate].
    + destruct (Ascii.eqb_spec c d) as [->|Hcd]; simpl.
      * rewrite IH. split; intros [t Ht]; exists t; congruence.
      * split; [discriminate | intros [t Ht]; congruence].
Qed.

Lemma endswith_iff (s suffix : string) :
  PyStr.endswith s suffix = true <-> ends_with s suffix.
Proof.
  unfold PyStr.endswith, ends_with. rewrite startswith_iff. split.
  - intros [t Ht]. exists (PyStr.rev t).
    rewrite <- (rev_involutive s), Ht, rev_append, rev_involutive.
    reflexivity.
  - intros [p ->]. exists (PyStr.rev p). apply rev_append.
Qed.

Lemma append_same_length_suffix (a b c d : string) :
  a ++ b = c ++ d -> String.length b = String.length d -> b = d.
Proof.
  revert c. induction a as [|x a IH]; intros c H L.
  - destruct c as [|y c]; [exact H|]. simpl in H. subst b.
    simpl in L. rewrite length_append in L. lia.
  - destruct c as [|y c].
    + simpl in H. subst d. simpl in L. rewrite length_append in L. lia.
    + simpl in H. injection H as _ H. eauto.
Qed.

Lemma length_lower (s : string) :
  String.length (PyStr.lower s) = String.length s.
Proof. induction s as [|c s IH]; simpl; congruence. Qed.

(** ** The output file name *)

Lemma output_file_name_cases (typed : string) :
  (ends_with (PyStr.strip typed) ".ydk" ->
   output_file_name typed = PyStr.strip typed)
  /\ (~ ends_with (PyStr.strip typed) ".ydk" ->
      output_file_name typed = PyStr.strip typed ++ ".ydk").
Proof.
  unfold output_file_name.
  destruct (PyStr.endswith (PyStr.strip typed) ".ydk") eqn:E; simpl.
  - apply endswith_iff in E. tauto.
  - split; [|reflexivity]. intro H. apply endswith_iff in H. congruence.
Qed.

(** C8.  The name typed by the user is trimmed; when the trimmed name ends
    with [.ydk] it is kept as it is, and when it does not, [.ydk] is added
    at its end.  So [MyDeck] gives [MyDeck.ydk], and [MyDeck.ydk] stays. *)
Theorem output_file_name_extension :
  forall typed : string,
    let file_name := PyStr.strip typed in
    (ends_with file_name ".ydk" -> output_file_name typed = file_name)
    /\ (~ ends_with file_name ".ydk" ->
        output_file_name typed = file_name ++ ".ydk")
    /\ ends_with (output_file_name typed) ".ydk"
    /\ output_file_name "MyDeck" = "MyDeck.ydk"
    /\ output_file_name "MyDeck.ydk" = "MyDeck.ydk".
Proof.
  intros typed file_name. subst file_name.
  destruct (output_file_name_cases typed) as [Hyes Hno].
  repeat split; trivial.
  unfold output_file_name.
  destruct (PyStr.endswith (PyStr.strip typed) ".ydk") eqn:E; simpl.
  - now apply endswith_iff.
  - now exists (PyStr.strip typed).
Qed.

(** C10.  The test for the extension compares characters as they are: a
    trimmed name ending with a differently cased spelling of [.ydk] does
    not end with [.ydk], and gets [.ydk] added. *)
Theorem output_file_name_case_sensitive :
  forall typed variant : string,
    PyStr.lower variant = ".ydk" ->
    variant <> ".ydk" ->
    ends_with (PyStr.strip typed) variant ->
    output_file_name typed = PyStr.strip typed ++ ".ydk".
Proof.
  intros typed variant Hlow Hneq [p Hp].
  apply output_file_name_cases. intros [q Hq].
  apply Hneq. rewrite Hp in Hq.
  apply (append_same_length_suffix _ _ _ _ Hq).
  rewrite <- length_lower, Hlow. reflexivity.
Qed.

Lemma output_file_name_case_sensitive_witness :
  output_file_name "MyDeck.YDK" = "MyDeck.YDK.ydk".
Proof.
  apply (output_file_name_case_sensitive "MyDeck.YDK" ".YDK").
  - reflexivity.
  - discriminate.
  - exists "MyDeck". reflexivity.
Defined.

(** ** Characters *)

Ltac each_char c :=
  destruct c as [[] [] [] [] [] [] [] []]; vm_compute;
  try discriminate; repeat split; try reflexivity; try discriminate.

Lemma digit_not_space (c : ascii) :
  PyChar.isdigit c = true -> PyChar.isspace c = false.
Proof. each_char c. Qed.

Lemma digit_not_xX (c : ascii) :
  PyChar.isdigit c = true -> PyChar.is_xX c = false.
Proof. each_char c. Qed.

Lemma digit_is_dot (c : ascii) :
  PyChar.isdigit c = true -> PyChar.isdot c = true.
Proof. each_char c. Qed.

Lemma digit_not_linebreak (c : ascii) :
  PyChar.isdigit c = true -> PyChar.islinebreak c = false.
Proof. each_char c. Qed.

Lemma digit_value_range (c : ascii) :
  PyChar.isdigit c = true -> 0 <= PyChar.digit_value c <= 9.
Proof. each_char c. Qed.

(** No character that can open a card line lowers to the number sign. *)
Lemma opener_not_hash (c : ascii) :
  PyChar.isspace c || PyChar.isdigit c || PyChar.is_xX c = true ->
  Ascii.eqb (PyChar.lower c) "#" = false.
Proof. each_char c. Qed.

(** ** Integers *)

Lemma int_digits_total (s : string) :
  PyStr.forallb PyChar.isdigit s = true ->
  forall acc, 0 <= acc -> exists q, int_digits acc s = Some q /\ acc <= q.
Proof.
  induction s as [|c s IH]; simpl; intros H acc Hacc.
  - exists acc. split; [reflexivity | lia].
  - apply andb_prop in H as [Hc Hs]. rewrite Hc.
    pose proof (digit_value_range c Hc) as R.
    destruct (IH Hs (10 * acc + PyChar.digit_value c)) as (q & Eq & Hq);
      [lia|].
    exists q. split; [exact Eq | lia].
Qed.

(** The value of [n] digits is below the [n]-th power of ten. *)
Lemma int_digits_below (s : string) :
  forall acc q,
    0 <= acc -> int_digits acc s = Some q ->
    q < (acc + 1) * 10 ^ Z.of_nat (String.length s).
Proof.
  induction s as [|c s IH]; intros acc q Hacc H.
  - simpl in *. injection H as <-. lia.
  - cbn [int_digits] in H. destruct (PyChar.isdigit c) eqn:Hc; [|discriminate].
    pose proof (digit_value_range c Hc) as R.
    apply IH in H; [|lia].
    cbn [String.length]. rewrite Nat2Z.inj_succ, Z.pow_succ_r by lia.
    pose proof (Z.pow_pos_nonneg 10 (Z.of_nat (String.length s))) as P.
    nia.
Qed.

Lemma py_int_digits (s : string) :
  s <> "" -> PyStr.forallb PyChar.isdigit s = true ->
  Z.of_nat (String.length s) <= int_max_str_digits ->
  exists q, int_digits 0 s = Some q /\ py_int (Some s) = Ok q
            /\ 0 <= q < 10 ^ int_max_str_digits.
Proof.
  intros Hne Hs Hlen.
  destruct (int_digits_total s Hs 0) as (q & Eq & Hq); [lia|].
  exists q. split; [exact Eq|]. split.
  - unfold py_int. destruct s; [congruence|]. rewrite Eq.
    now apply Z.leb_le in Hlen as ->.
  - split; [exact Hq|].
    pose proof (int_digits_below s 0 q (Z.le_refl 0) Eq) as B.
    assert (10 ^ Z.of_nat (String.length s) <= 10 ^ int_max_str_digits)
      by (apply Z.pow_le_mono_r; lia).
    lia.
Qed.

(** [int] refuses more digits than [int_max_str_digits]. *)
Lemma py_int_too_long (s : string) :
  PyStr.forallb PyChar.isdigit s = true ->
  int_max_str_digits < Z.of_nat (String.length s) ->
  py_int (Some s) = Raise ValueError.
Proof.
  intros Hs Hlen. unfold py_int. destruct s; [reflexivity|].
  destruct (int_digits 0 (String a s)); [|reflexivity].
  now apply Z.leb_gt in Hlen as ->.
Qed.

(** ** The matcher *)

Lemma substring_append (a b : string) :
  String.substring 0 (String.length a) (a ++ b) = a.
Proof.
  induction a as [|c a IH]; simpl.
  - destruct b; reflexivity.
  - now rewrite IH.
Qed.

Lemma consumed_append (a b : string) : consumed (a ++ b) b = a.
Proof.
  unfold consumed. rewrite length_append.
  replace (String.length a + String.length b - String.length b)%nat
    with (String.length a) by lia.
  apply substring_append.
Qed.

(** A repetition that succeeds took some run of the class, at least [lo]
    long, and the rest of the pattern succeeded after it. *)
Lemma rep_inv (p : ascii -> bool) (k : string -> option groups) (g : groups) :
  forall (s : string) (lo : nat),
    rep p lo s k = Some g ->
    exists a b, s = a ++ b /\ PyStr.forallb p a = true
                /\ (lo <= String.length a)%nat /\ k b = Some g.
Proof.
  assert (Stop : forall s lo,
             (if Nat.eqb lo 0 then k s else None) = Some g ->
             exists a b, s = a ++ b /\ PyStr.forallb p a = true
                         /\ (lo <= String.length a)%nat /\ k b = Some g).
  { intros s lo H. destruct lo; [|discriminate].
    exists "", s. repeat split; trivial. }
  induction s as [|c s IH]; intros lo H; simpl in H.
  - now apply Stop.
  - destruct (p c) eqn:Hc; [|now apply Stop].
    destruct (rep p (Nat.pred lo) s k) as [g'|] eqn:R; [|now apply Stop].
    injection H as ->.
    destruct (IH _ R) as (a & b & -> & Ha & Hlo & Hk).
    exists (String c a), b. simpl. rewrite Hc, Ha.
    repeat split; trivial. lia.
Qed.

(** The longest run is tried first: when the rest of the pattern accepts
    what follows it, that is the match. *)
Lemma rep_longest (p : ascii -> bool) (k : string -> option groups)
      (g : groups) (b : string) :
  stops p b -> k b = Some g ->
  forall (a : string) (lo : nat),
    PyStr.forallb p a = true -> (lo <= String.length a)%nat ->
    rep p lo (a ++ b) k = Some g.
Proof.
  intros Hb Hk. induction a as [|c a IH]; intros lo Ha Hlo.
  - simpl in Hlo. assert (lo = 0%nat) as -> by lia. simpl.
    destruct b as [|d b]; simpl in *; [exact Hk|].
    now rewrite Hb.
  - simpl in *. apply andb_prop in Ha as [Hc Ha]. rewrite Hc.
    rewrite (IH (Nat.pred lo) Ha); [reflexivity | lia].
Qed.

(** When the rest of the pattern refuses the end of the input but accepts
    its last character, a run that reaches the end gives that character
    back. *)
Lemma rep_gives_back_one (p : ascii -> bool) (k : string -> option groups)
      (g : groups) (d : ascii) :
  p d = true -> k "" = None -> k (String d "") = Some g ->
  forall (a : string) (lo : nat),
    PyStr.forallb p a = true -> (lo <= String.length a)%nat ->
    rep p lo (a ++ String d "") k = Some g.
Proof.
  intros Hd Hnil Hk. induction a as [|c a IH]; intros lo Ha Hlo.
  - simpl in Hlo. assert (lo = 0%nat) as -> by lia. simpl.
    now rewrite Hd, Hnil.
  - simpl in *. apply andb_prop in Ha as [Hc Ha]. rewrite Hc.
    rewrite (IH (Nat.pred lo) Ha); [reflexivity | lia].
Qed.

Lemma opener_append (a b : string) :
  a <> "" -> opener (a ++ b) = opener a.
Proof. destruct a; [congruence | reflexivity]. Qed.

Lemma opener_spaces (a b : string) :
  PyStr.forallb PyChar.isspace a = true -> opener b = true ->
  opener (a ++ b) = true.
Proof.
  destruct a as [|c a]; simpl; [tauto|].
  intros H _. apply andb_prop in H as [-> _]. reflexivity.
Qed.

Lemma name_and_end_inv (s : string) (g m : groups) :
  name_and_end s g = Some m ->
  exists name, name <> "" /\ m = (3%nat, name) :: g.
Proof.
  unfold name_and_end. intro H.
  apply rep_inv in H as (a & b & -> & _ & Hlo & H).
  destruct (PyStr.is_empty b || String.eqb b PyStr.LF); [|discriminate].
  injection H as <-. rewrite consumed_append.
  exists a. split; [|reflexivity].
  destruct a; [simpl in Hlo; lia | discriminate].
Qed.

(** The shape of every match of [card_regex]: exactly one of the groups 1
    and 2 took part, with one digit or more; group 3 took part, with one
    character or more; and the line opens with a blank, a digit or an x. *)
Lemma card_regex_inv (line : string) (m : groups) :
  re_match card_regex line = Some m ->
  exists digits name,
    digits <> "" /\ PyStr.forallb PyChar.isdigit digits = true
    /\ name <> ""
    /\ (m = [(3%nat, name); (1%nat, digits)]
        \/ m = [(3%nat, name); (2%nat, digits)])
    /\ opener line = true
    /\ (String.length digits <= String.length line)%nat.
Proof.
  unfold re_match, card_regex. cbn [run].
  rewrite Nat.eqb_refl. fold name_and_end.
  intro H.
  match type of H with
  | match ?A with _ => _ end = _ => destruct A as [m'|] eqn:HA
  end.
  - injection H as ->.
    apply rep_inv in HA as (ws & s1 & -> & Hws & _ & HA).
    apply rep_inv in HA as (ds & s2 & -> & Hds & Hlo & HA).
    rewrite consumed_append in HA.
    assert (Hne : ds <> "") by (destruct ds; [simpl in Hlo; lia | discriminate]).
    assert (Hop : opener (ws ++ ds ++ s2) = true).
    { apply opener_spaces; [exact Hws|]. rewrite opener_append by exact Hne.
      destruct ds as [|c ds]; [congruence|]. simpl in *.
      apply andb_prop in Hds as [-> _]. now rewrite orb_true_r. }
    assert (Tail : forall s, rep PyChar.isspace 0 s
                     (fun s' => name_and_end s' [(1%nat, ds)]) = Some m ->
                   exists name, name <> "" /\ m = [(3%nat, name); (1%nat, ds)]).
    { intros s R. apply rep_inv in R as (a & b & _ & _ & _ & R).
      now apply name_and_end_inv in R. }
    assert (exists name, name <> "" /\ m = [(3%nat, name); (1%nat, ds)])
      as (name & Hname & ->).
    { destruct s2 as [|c s2]; [now apply (Tail "")|].
      destruct (PyChar.is_xX c); [|now apply (Tail (String c s2))].
      match type of HA with
      | match ?A with _ => _ end = _ => destruct A eqn:HB
      end.
      - injection HA as ->. now apply (Tail s2).
      - now apply (Tail (String c s2)). }
    assert (String.length ds <= String.length (ws ++ ds ++ s2))%nat
      by (rewrite !length_append; lia).
    exists ds, name. tauto.
  - apply rep_inv in H as (ws & s1 & -> & Hws & _ & H).
    destruct s1 as [|c s1]; [discriminate|].
    destruct (PyChar.is_xX c) eqn:Hx; [|discriminate].
    apply rep_inv in H as (ds & s2 & -> & Hds & Hlo & H).
    rewrite consumed_append in H.
    apply rep_inv in H as (a & b & _ & _ & _ & H).
    apply name_and_end_inv in H as (name & Hname & ->).
    exists ds, name. repeat split; trivial.
    + destruct ds; [simpl in Hlo; lia | discriminate].
    + now right.
    + apply opener_spaces; [exact Hws|]. simpl. rewrite Hx.
      now rewrite orb_true_r.
    + rewrite length_append. cbn [String.length].
      rewrite length_append. lia.
Qed.

(** ** Card lines *)

(** The fields of a match in which group [i], 1 or 2, holds [digits] and
    group 3 holds [name]. *)
Lemma card_fields_of_groups (line digits name : string) (i : nat) :
  i = 1%nat \/ i = 2%nat -> digits <> "" ->
  re_match card_regex line = Some [(3%nat, name); (i, digits)] ->
  card_fields line
  = Some (quantity <- py_int (Some digits) ;; Ok (quantity, PyStr.strip name)).
Proof.
  intros Hi Hne Hm. unfold card_fields. rewrite Hm.
  destruct digits as [|d digits]; [congruence|].
  destruct Hi as [-> | ->]; reflexivity.
Qed.

(** The lines 49-52 on any line: no match; or a quantity of at most
    [int_max_str_digits] digits, read by [int], not negative, with the name
    there; or a quantity of more digits, on which [int] raises
    [ValueError].  The digits are part of the line. *)
Lemma card_fields_cases (line : string) :
  card_fields line = None
  \/ exists digits : string,
      (String.length digits <= String.length line)%nat
      /\ ((Z.of_nat (String.length digits) <= int_max_str_digits
           /\ exists quantity card_name,
               card_fields line = Some (Ok (quantity, card_name))
               /\ 0 <= quantity < 10 ^ int_max_str_digits)
          \/ (int_max_str_digits < Z.of_nat (String.length digits)
              /\ card_fields line = Some (Raise ValueError))).
Proof.
  destruct (re_match card_regex line) as [m|] eqn:M;
    [right | left; unfold card_fields; now rewrite M].
  destruct (card_regex_inv _ _ M)
    as (ds & name & Hne & Hds & _ & Hm & _ & Hlen).
  exists ds. split; [exact Hlen|].
  assert (Hf : card_fields line
               = Some (quantity <- py_int (Some ds) ;;
                       Ok (quantity, PyStr.strip name))).
  { destruct Hm as [-> | ->];
      [apply (card_fields_of_groups _ _ _ 1%nat)
      | apply (card_fields_of_groups _ _ _ 2%nat)]; auto. }
  destruct (Z.le_gt_cases (Z.of_nat (String.length ds)) int_max_str_digits)
    as [Hshort | Hlong].
  - left. split; [exact Hshort|].
    destruct (py_int_digits ds Hne Hds Hshort) as (q & _ & Hq & Hrange).
    exists q, (PyStr.strip name). rewrite Hf, Hq. now split.
  - right. split; [exact Hlong|].
    now rewrite Hf, (py_int_too_long ds Hds Hlong).
Qed.

Lemma card_fields_opener (line : string) (r : result (Z * string)) :
  card_fields line = Some r -> opener line = true.
Proof.
  unfold card_fields.
  destruct (re_match card_regex line) as [m|] eqn:M; [|discriminate].
  intros _. now apply card_regex_inv in M as (? & ? & ? & ? & ? & ? & ? & ?).
Qed.

(** A line that opens like a card line is neither blank nor a header. *)
Lemma opener_not_header (line : string) :
  opener line = true ->
  PyStr.is_empty line = false
  /\ String.eqb (PyStr.lower line) "#main" = false
  /\ String.eqb (PyStr.lower line) "#extra" = false
  /\ String.eqb (PyStr.lower line) "#side" = false.
Proof.
  destruct line as [|c line]; [discriminate|]. intro H.
  apply opener_not_hash in H. simpl. rewrite H. tauto.
Qed.

Section ParserFacts.

Context {World : Type}.
Variable resolve : string -> option string -> World -> option string * World.
Variable format_name : option string.

(** What the loop body does with a card line: one lookup, and on a
    non-empty answer the copies. *)
Lemma process_line_card (st : parser_state) (raw : string) (w : World)
      (quantity : Z) (card_name : string) :
  card_fields (PyStr.strip raw) = Some (Ok (quantity, card_name)) ->
  process_line resolve format_name st raw w =
    (Ok match fst (resolve card_name format_name w) with
        | Some id =>
            if PyStr.truthy id
            then Nat.iter (Z.to_nat quantity) (append_card id) st
            else st
        | None => st
        end,
     snd (resolve card_name format_name w)).
Proof.
  intro H. unfold process_line.
  destruct (opener_not_header _ (card_fields_opener _ _ H))
    as (-> & -> & -> & ->).
  rewrite H. now destruct (resolve card_name format_name w).
Qed.

(** A quantity that [int] refuses stops the loop body before the lookup. *)
Lemma process_line_raise (st : parser_state) (raw : string) (w : World)
      (e : exn) :
  card_fields (PyStr.strip raw) = Some (Raise e) ->
  process_line resolve format_name st raw w = (Raise e, w).
Proof.
  intro H. unfold process_line.
  destruct (opener_not_header _ (card_fields_opener _ _ H))
    as (-> & -> & -> & ->).
  now rewrite H.
Qed.




(** An empty line at the end changes nothing, whether the lines before it
    are parsed to the end or not. *)
Lemma parse_lines_blank_end (lines : list string) :
  forall st w,
    parse_lines resolve format_name (lines ++ [""]) st w
    = parse_lines resolve format_name lines st w.
Proof.
  induction lines as [|raw lines IH]; intros st w; [reflexivity|].
  cbn [app parse_lines].
  destruct (process_line resolve format_name st raw w) as [[st1|e] w1];
    [apply IH | reflexivity].
Qed.

Lemma parse_lines_app (l1 l2 : list string) :
  forall st w st1 w1,
    parse_lines resolve format_name l1 st w = (Ok st1, w1) ->
    parse_lines resolve format_name (l1 ++ l2) st w =
      parse_lines resolve format_name l2 st1 w1.
Proof.
  induction l1 as [|raw l1 IH]; intros st w st1 w1 H; simpl in *.
  - now injection H as -> ->.
  - destruct (process_line resolve format_name st raw w) as [[st'|e] w'];
      [eauto | discriminate].
Qed.

End ParserFacts.

Lemma rep_stops (p : ascii -> bool) (k : string -> option groups) (b : string) :
  stops p b -> rep p 0 b k = k b.
Proof. destruct b as [|d b]; simpl; [reflexivity | now intros ->]. Qed.

Lemma strip_digits (s : string) :
  PyStr.forallb PyChar.isdigit s = true -> PyStr.strip s = s.
Proof.
  intro H. unfold PyStr.strip.
  assert (L : PyStr.lstrip s = s).
  { destruct s as [|c s]; [reflexivity|]. simpl in *.
    apply andb_prop in H as [Hc _]. now rewrite (digit_not_space c Hc). }
  rewrite L. clear L.
  induction s as [|c s IH]; [reflexivity|]. simpl in *.
  apply andb_prop in H as [Hc Hs].
  rewrite (IH Hs), (digit_not_space c Hc), andb_false_r. reflexivity.
Qed.

Lemma digits_stop_spaces (digits rest : string) :
  digits <> "" -> PyStr.forallb PyChar.isdigit digits = true ->
  stops PyChar.isspace (digits ++ rest).
Proof.
  destruct digits as [|c digits]; [congruence|]. simpl. intros _ H.
  apply andb_prop in H as [Hc _]. now apply digit_not_space.
Qed.

(** A quantity, a blank and a one-letter name: the plainest card line. *)
Lemma card_fields_plain (digits : string) :
  digits <> "" -> PyStr.forallb PyChar.isdigit digits = true ->
  card_fields (digits ++ " A")
  = Some (quantity <- py_int (Some digits) ;; Ok (quantity, "A")).
Proof.
  intros Hne Hds.
  rewrite (card_fields_of_groups _ digits "A" 1%nat);
    [reflexivity | now left | exact Hne |].
  unfold re_match, card_regex. cbn [run].
  rewrite Nat.eqb_refl.
  rewrite (rep_stops PyChar.isspace) by now apply digits_stop_spaces.
  erewrite (rep_longest PyChar.isdigit _ _ " A");
    [ | reflexivity | rewrite consumed_append; reflexivity | exact Hds
      | destruct digits; [congruence | simpl; lia] ].
  reflexivity.
Qed.

Lemma digits_snoc (digits : string) (last : ascii) :
  PyStr.forallb PyChar.isdigit digits = true ->
  PyChar.isdigit last = true ->
  PyStr.forallb PyChar.isdigit (digits ++ String last "") = true.
Proof.
  intros Hds Hlast. induction digits as [|c digits IH]; simpl in *.
  - now rewrite Hlast.
  - apply andb_prop in Hds as [-> Hds]. now apply IH.
Qed.

(** The line made of [digits] and one more digit [last]: the repetition
    first takes every digit, the name then has nothing left, and one digit
    is given back. *)
Lemma card_fields_digits_only (digits : string) (last : ascii) :
  digits <> "" -> PyStr.forallb PyChar.isdigit digits = true ->
  PyChar.isdigit last = true ->
  card_fields (digits ++ String last "")
  = Some (quantity <- py_int (Some digits) ;; Ok (quantity, String last "")).
Proof.
  intros Hne Hds Hlast.
  rewrite (card_fields_of_groups _ digits (String last "") 1%nat);
    [ | now left | exact Hne | ].
  { rewrite (strip_digits (String last "")); [reflexivity|].
    simpl. now rewrite Hlast. }
  unfold re_match, card_regex. cbn [run].
  rewrite Nat.eqb_refl.
  rewrite (rep_stops PyChar.isspace) by now apply digits_stop_spaces.
  erewrite (rep_gives_back_one PyChar.isdigit _ _ last);
    [ | exact Hlast | reflexivity | | exact Hds
      | destruct digits; [congruence | simpl; lia] ].
  2:{ cbn [rep Nat.eqb Nat.pred].
      rewrite (digit_not_xX last Hlast), (digit_not_space last Hlast),
        (digit_is_dot last Hlast).
      cbn [PyStr.is_empty orb]. rewrite consumed_append. reflexivity. }
  reflexivity.
Qed.

Lemma int_digits_zeros (k : nat) (acc : Z) :
  int_digits acc (Nat.iter k (String "0") "") = Some (acc * 10 ^ Z.of_nat k).
Proof.
  revert acc. induction k as [|k IH]; intro acc.
  - simpl. f_equal. lia.
  - rewrite Nat2Z.inj_succ, Z.pow_succ_r by lia.
    rewrite Nat.iter_succ. cbn [int_digits].
    change (PyChar.isdigit "0") with true. cbv iota.
    change (PyChar.digit_value "0") with 0.
    rewrite IH. f_equal. lia.
Qed.

Lemma power_of_ten_digits_spec (k : nat) :
  power_of_ten_digits k <> ""
  /\ PyStr.forallb PyChar.isdigit (power_of_ten_digits k) = true
  /\ int_digits 0 (power_of_ten_digits k) = Some (10 ^ Z.of_nat k).
Proof.
  unfold power_of_ten_digits. repeat split; [discriminate | | ].
  - cbn [PyStr.forallb]. change (PyChar.isdigit "1") with true.
    cbn [andb]. induction k as [|k IH]; [reflexivity|].
    rewrite Nat.iter_succ. cbn [PyStr.forallb].
    change (PyChar.isdigit "0") with true. exact IH.
  - cbn [int_digits]. change (PyChar.isdigit "1") with true. cbv iota.
    change (10 * 0 + PyChar.digit_value "1") with 1.
    rewrite int_digits_zeros. f_equal. lia.
Qed.

Lemma strip_plain (digits : string) :
  digits <> "" -> PyStr.forallb PyChar.isdigit digits = true ->
  PyStr.strip (digits ++ " A") = digits ++ " A".
Proof.
  intros Hne Hds. unfold PyStr.strip.
  assert (L : PyStr.lstrip (digits ++ " A") = digits ++ " A").
  { destruct digits as [|c digits]; [congruence|]. simpl in *.
    apply andb_prop in Hds as [Hc _]. now rewrite (digit_not_space c Hc). }
  rewrite L. clear L Hne Hds.
  induction digits as [|c digits IH]; [reflexivity|].
  cbn [append PyStr.rstrip]. rewrite IH.
  now destruct digits.
Qed.

Lemma length_power_of_ten_digits (k : nat) :
  String.length (power_of_ten_digits k) = S k.
Proof.
  unfold power_of_ten_digits. cbn [String.length]. f_equal.
  induction k as [|k IH]; [reflexivity|].
  rewrite Nat.iter_succ. cbn [String.length]. now rewrite IH.
Qed.

Lemma card_fields_nonneg (line : string) (quantity : Z) (card_name : string) :
  card_fields line = Some (Ok (quantity, card_name)) ->
  0 <= quantity < 10 ^ int_max_str_digits.
Proof.
  intro H.
  destruct (card_fields_cases line)
    as [E | (ds & _ & [(_ & q & name & E & R) | (_ & E)])];
    congruence.
Qed.

(** C2, as the code has it.  The quantity of an accepted card line is never
    negative, but it can be zero, and such a line adds no identifier.  The
    program sets no bound of its own: the one bound is the number of digits
    that [int] reads.  A quantity of at most [int_max_str_digits] digits is
    accepted with its value, so every power of ten with that many digits is
    a quantity and every quantity is below the next one; a quantity of more
    digits is not accepted: [int] raises [ValueError] before any lookup. *)
Theorem quantity_not_negative_digit_limited :
  (forall (line : string) (quantity : Z) (card_name : string),
      card_fields line = Some (Ok (quantity, card_name)) ->
      0 <= quantity < 10 ^ int_max_str_digits)
  /\ (forall (World : Type)
             (resolve : string -> option string -> World
                        -> option string * World)
             (format_name : option string) (st : parser_state)
             (raw card_name : string) (w : World),
         card_fields (PyStr.strip raw) = Some (Ok (0, card_name)) ->
         process_line resolve format_name st raw w
         = (Ok st, snd (resolve card_name format_name w)))
  /\ (forall digits : string,
         digits <> "" ->
         PyStr.forallb PyChar.isdigit digits = true ->
         Z.of_nat (String.length digits) <= int_max_str_digits ->
         exists quantity : Z,
           int_digits 0 digits = Some quantity
           /\ card_fields (PyStr.strip (digits ++ " A"))
              = Some (Ok (quantity, "A")))
  /\ (forall k : nat,
         Z.of_nat k < int_max_str_digits ->
         card_fields (PyStr.strip (power_of_ten_digits k ++ " A"))
         = Some (Ok (10 ^ Z.of_nat k, "A")))
  /\ (forall digits : string,
         PyStr.forallb PyChar.isdigit digits = true ->
         int_max_str_digits < Z.of_nat (String.length digits) ->
         card_fields (PyStr.strip (digits ++ " A")) = Some (Raise ValueError)
         /\ forall (World : Type)
                   (resolve : string -> option string -> World
                              -> option string * World)
                   (format_name : option string) (st : parser_state)
                   (w : World),
             process_line resolve format_name st (digits ++ " A") w
             = (Raise ValueError, w)).
Proof.
  assert (Short : forall digits,
             digits <> "" ->
             PyStr.forallb PyChar.isdigit digits = true ->
             Z.of_nat (String.length digits) <= int_max_str_digits ->
             exists quantity,
               int_digits 0 digits = Some quantity
               /\ card_fields (PyStr.strip (digits ++ " A"))
                  = Some (Ok (quantity, "A"))).
  { intros digits Hne Hds Hlen.
    destruct (py_int_digits digits Hne Hds Hlen) as (q & Eq & Hq & _).
    exists q. split; [exact Eq|].
    now rewrite (strip_plain _ Hne Hds), (card_fields_plain _ Hne Hds), Hq. }
  split; [apply card_fields_nonneg|]. split; [|split; [exact Short|split]].
  - intros World resolve format_name st raw card_name w Hcard.
    rewrite (process_line_card _ _ _ _ _ _ _ Hcard).
    destruct (fst (resolve card_name format_name w)) as [id|];
      [destruct (PyStr.truthy id)|]; reflexivity.
  - intros k Hk.
    destruct (power_of_ten_digits_spec k) as (Hne & Hds & Hval).
    destruct (Short (power_of_ten_digits k) Hne Hds) as (q & Eq & Hq).
    + rewrite length_power_of_ten_digits. lia.
    + rewrite Hq. congruence.
  - intros digits Hds Hlong.
    assert (Hne : digits <> "").
    { intros ->. unfold int_max_str_digits in Hlong. simpl in Hlong. lia. }
    assert (Hcard : card_fields (PyStr.strip (digits ++ " A"))
                    = Some (Raise ValueError)).
    { now rewrite (strip_plain _ Hne Hds), (card_fields_plain _ Hne Hds),
        (py_int_too_long _ Hds Hlong). }
    split; [exact Hcard|].
    intros World resolve format_name st w. now apply process_line_raise.
Qed.

Lemma quantity_not_negative_digit_limited_witness :
  0 <= 12 < 10 ^ int_max_str_digits
  /\ process_line stub_resolver None initial_state "0 Pot of Greed" tt
     = (Ok initial_state, tt)
  /\ card_fields (PyStr.strip (power_of_ten_digits 3 ++ " A"))
     = Some (Ok (1000, "A")).
Proof.
  destruct quantity_not_negative_digit_limited as (H1 & H2 & _ & H4 & _).
  split; [exact (H1 "12 A" 12 "A" eq_refl)|].
  split; [|exact (H4 3%nat eq_refl)].
  exact (H2 unit stub_resolver None initial_state
            "0 Pot of Greed" "Pot of Greed" tt eq_refl).
Defined.

(** C2, as the spec has it, fails on a line that asks for zero copies: the
    pattern matches and the quantity is 0. *)
Lemma zero_quantity_is_accepted :
  card_fields (PyStr.strip "0 Pot of Greed") = Some (Ok (0, "Pot of Greed"))
  /\ ~ 0 < 0.
Proof. split; [reflexivity | lia]. Qed.

(** ** The decks *)

Lemma extends_refl (st : parser_state) : extends st st.
Proof. intro sec. exists []. now rewrite app_nil_r. Qed.

Lemma extends_trans (a b c : parser_state) :
  extends a b -> extends b c -> extends a c.
Proof.
  intros Hab Hbc sec. destruct (Hab sec) as [l1 E1], (Hbc sec) as [l2 E2].
  exists (l1 ++ l2)%list. now rewrite E2, E1, app_assoc.
Qed.

Lemma extends_set_section (sec : section) (st : parser_state) :
  extends st (set_section sec st).
Proof. intros []; exists []; simpl; now rewrite app_nil_r. Qed.

(** The loop [for _ in range(quantity)]: the copies go to the end of the
    deck of the current section, and nothing else changes. *)
Lemma iter_append_card (card_id : string) (st : parser_state) (n : nat) :
  let st' := Nat.iter n (append_card card_id) st in
  current_section st' = current_section st
  /\ deck_of (current_section st) st'
     = (deck_of (current_section st) st ++ repeat card_id n)%list
  /\ (forall other, other <> current_section st ->
                    deck_of other st' = deck_of other st).
Proof.
  induction n as [|n IH]; cbn zeta.
  - simpl. rewrite app_nil_r. tauto.
  - rewrite Nat.iter_succ. cbn zeta in IH.
    destruct IH as (Hsec & Hdeck & Hother).
    set (mid := Nat.iter n (append_card card_id) st) in *.
    assert (R : repeat card_id (S n) = (repeat card_id n ++ [card_id])%list)
      by apply (repeat_cons n card_id).
    rewrite R, app_assoc, <- Hdeck. clear R Hdeck.
    unfold append_card. rewrite Hsec.
    destruct (current_section st); simpl; repeat split; trivial;
      intros [] Hneq; try congruence;
      rewrite <- (Hother _ Hneq); reflexivity.
Qed.

Lemma extends_iter_append_card (card_id : string) (st : parser_state) (n : nat) :
  extends st (Nat.iter n (append_card card_id) st).
Proof.
  destruct (iter_append_card card_id st n) as (_ & Hdeck & Hother).
  intro sec. destruct (section_eq_dec sec (current_section st)) as [-> | N].
  - eexists. exact Hdeck.
  - exists []. rewrite app_nil_r. now apply Hother.
Qed.


(** ** The parser *)

Section ParserProperties.

Context {World : Type}.
Variable resolve : string -> option string -> World -> option string * World.
Variable format_name : option string.

Lemma process_line_extends (st st' : parser_state) (raw : string)
      (w w' : World) :
  process_line resolve format_name st raw w = (Ok st', w') -> extends st st'.
Proof.
  unfold process_line.
  repeat match goal with
         | |- context [if ?b then _ else _] => destruct b
         end;
    try (intro H; injection H as <- _;
         first [apply extends_refl | apply extends_set_section]).
  destruct (card_fields (PyStr.strip raw)) as [[[q name]|e]|];
    [ | discriminate | intro H; injection H as <- _; apply extends_refl ].
  destruct (resolve name format_name w) as [[id|] w1];
    intro H; injection H as <- _; [|apply extends_refl].
  destruct (PyStr.truthy id);
    [apply extends_iter_append_card | apply extends_refl].
Qed.

Lemma parse_lines_extends (lines : list string) :
  forall st st' w w',
    parse_lines resolve format_name lines st w = (Ok st', w') ->
    extends st st'.
Proof.
  induction lines as [|raw lines IH]; intros st st' w w' H; simpl in H.
  - injection H as <- _. apply extends_refl.
  - destruct (process_line resolve format_name st raw w) as [[st1|e] w1] eqn:P;
      [|discriminate].
    eapply extends_trans; [eapply process_line_extends | eapply IH]; eauto.
Qed.

End ParserProperties.

(** C4.  Take a card line that comes after the lines [before] and whose
    name the resolver answers with a non-empty identifier.  Once the line
    is processed, the deck of the section that was current holds exactly
    [quantity] more entries, all of them that identifier, after the ones it
    held; the other decks and the current section are as before; and
    whatever lines follow, when the parse returns the decks have only grown
    at their end, so every deck lists its identifiers in the order of the
    input. *)
Theorem card_line_appends_quantity_copies :
  forall (World : Type)
         (resolve : string -> option string -> World -> option string * World)
         (format_name : option string)
         (before after : list string) (raw : string)
         (quantity : Z) (card_name card_id : string)
         (st0 st1 : parser_state) (w0 w1 w2 : World),
    parse_lines resolve format_name before st0 w0 = (Ok st1, w1) ->
    card_fields (PyStr.strip raw) = Some (Ok (quantity, card_name)) ->
    resolve card_name format_name w1 = (Some card_id, w2) ->
    PyStr.truthy card_id = true ->
    exists st2 : parser_state,
      parse_lines resolve format_name (before ++ [raw]) st0 w0 = (Ok st2, w2)
      /\ current_section st2 = current_section st1
      /\ deck_of (current_section st1) st2
         = (deck_of (current_section st1) st1
            ++ repeat card_id (Z.to_nat quantity))%list
      /\ Z.of_nat (List.length (repeat card_id (Z.to_nat quantity))) = quantity
      /\ (forall other, other <> current_section st1 ->
                        deck_of other st2 = deck_of other st1)
      /\ forall (st3 : parser_state) (w3 : World),
          parse_lines resolve format_name (before ++ raw :: after) st0 w0
          = (Ok st3, w3) ->
          extends st2 st3.
Proof.
  intros World resolve format_name before after raw quantity card_name card_id
         st0 st1 w0 w1 w2 Hbefore Hcard Hres Htruthy.
  set (st2 := Nat.iter (Z.to_nat quantity) (append_card card_id) st1).
  assert (Hline : process_line resolve format_name st1 raw w1 = (Ok st2, w2)).
  { rewrite (process_line_card _ _ _ _ _ _ _ Hcard), Hres. simpl.
    now rewrite Htruthy. }
  destruct (iter_append_card card_id st1 (Z.to_nat quantity))
    as (Hsec & Hdeck & Hother).
  exists st2. repeat split; trivial.
  - rewrite (parse_lines_app _ _ _ _ _ _ _ _ Hbefore). simpl.
    now rewrite Hline.
  - rewrite repeat_length, Z2Nat.id; [reflexivity|].
    now apply card_fields_nonneg in Hcard.
  - intros st3 w3 Hall.
    rewrite (parse_lines_app _ _ _ _ _ _ _ _ Hbefore) in Hall.
    simpl in Hall. rewrite Hline in Hall.
    eapply parse_lines_extends; eauto.
Qed.

Lemma card_line_appends_quantity_copies_witness :
  exists st2 : parser_state,
    parse_lines stub_resolver None ["#extra"; "2 Monster Reborn"]
                initial_state tt = (Ok st2, tt)
    /\ extra_deck st2 = ["83764719"; "83764719"]
    /\ main_deck st2 = [].
Proof.
  destruct (card_line_appends_quantity_copies
              unit stub_resolver None ["#extra"] ["1 Pot of Greed"]
              "2 Monster Reborn" 2 "Monster Reborn" "83764719"
              initial_state (set_section Extra initial_state) tt tt tt
              eq_refl eq_refl eq_refl eq_refl)
    as (st2 & Hparse & _ & Hdeck & _ & Hother & _).
  exists st2. split; [exact Hparse|]. split; [exact Hdeck|].
  apply (Hother Main). discriminate.
Defined.

(** C9, as the code has it.  A line that, once trimmed, is made of two
    digits or more and nothing else matches the pattern: the repetition
    first takes every digit, then gives back the last one, which becomes the
    card name, and the digits before it are the quantity.  When these are at
    most [int_max_str_digits], the line is a card line and the loop body
    asks the resolver for that one-digit name; when they are more, [int]
    raises [ValueError] and nothing is asked. *)
Theorem digits_only_line_is_card_line :
  forall (World : Type)
         (resolve : string -> option string -> World -> option string * World)
         (format_name : option string) (st : parser_state) (w : World)
         (raw digits : string) (last : ascii),
    PyStr.strip raw = digits ++ String last "" ->
    digits <> "" ->
    PyStr.forallb PyChar.isdigit digits = true ->
    PyChar.isdigit last = true ->
    (Z.of_nat (String.length digits) <= int_max_str_digits ->
     exists quantity : Z,
       int_digits 0 digits = Some quantity
       /\ card_fields (PyStr.strip raw) = Some (Ok (quantity, String last ""))
       /\ process_line resolve format_name st raw w
          = (Ok match fst (resolve (String last "") format_name w) with
                | Some id =>
                    if PyStr.truthy id
                    then Nat.iter (Z.to_nat quantity) (append_card id) st
                    else st
                | None => st
                end,
             snd (resolve (String last "") format_name w)))
    /\ (int_max_str_digits < Z.of_nat (String.length digits) ->
        card_fields (PyStr.strip raw) = Some (Raise ValueError)
        /\ process_line resolve format_name st raw w
           = (Raise ValueError, w)).
Proof.
  intros World resolve format_name st w raw digits last Hraw Hne Hds Hlast.
  pose proof (card_fields_digits_only digits last Hne Hds Hlast) as Hcard.
  rewrite <- Hraw in Hcard. split.
  - intro Hshort.
    destruct (py_int_digits digits Hne Hds Hshort) as (q & Eq & Hq & _).
    rewrite Hq in Hcard. cbn [bind] in Hcard.
    exists q. repeat split; trivial.
    now apply process_line_card.
  - intro Hlong.
    rewrite (py_int_too_long digits Hds Hlong) in Hcard. cbn [bind] in Hcard.
    split; [exact Hcard | now apply process_line_raise].
Qed.

Lemma digits_only_line_is_card_line_witness :
  int_digits 0 "5514452" = Some 5514452
  /\ card_fields (PyStr.strip " 55144522 ") = Some (Ok (5514452, "2"))
  /\ process_line stub_resolver None initial_state " 55144522 " tt
     = (Ok initial_state, tt).
Proof.
  destruct (digits_only_line_is_card_line
              unit stub_resolver None initial_state tt
              " 55144522 " "5514452" "2"%char)
    as [H _];
    [reflexivity | discriminate | reflexivity | reflexivity |].
  destruct H as (q & H1 & H2 & H3); [vm_compute; discriminate|].
  assert (q = 5514452) as -> by (vm_compute in H1; congruence).
  repeat split; trivial.
Defined.

(** C9, as the spec has it, fails on a line of digits that is long enough:
    on the line of [int_max_str_digits] + 2 digits below, the pattern
    matches, but [int] refuses the quantity, and the loop body raises
    [ValueError] without asking the resolver. *)
Lemma long_digit_line_raises :
  let line := power_of_ten_digits (Z.to_nat int_max_str_digits) ++ "2" in
  Z.of_nat (String.length line) = int_max_str_digits + 2
  /\ PyStr.forallb PyChar.isdigit line = true
  /\ PyStr.strip line = line
  /\ card_fields (PyStr.strip line) = Some (Raise ValueError)
  /\ forall (World : Type)
            (resolve : string -> option string -> World
                       -> option string * World)
            (format_name : option string) (st : parser_state) (w : World),
      process_line resolve format_name st line w = (Raise ValueError, w).
Proof.
  intro line. subst line.
  set (digits := power_of_ten_digits (Z.to_nat int_max_str_digits)).
  destruct (power_of_ten_digits_spec (Z.to_nat int_max_str_digits))
    as (Hne & Hds & _). fold digits in Hne, Hds.
  assert (Hlen : Z.of_nat (String.length digits) = int_max_str_digits + 1).
  { unfold digits. rewrite length_power_of_ten_digits, Nat2Z.inj_succ.
    rewrite Z2Nat.id; [lia | discriminate]. }
  assert (Hall : PyStr.forallb PyChar.isdigit (digits ++ "2") = true)
    by now apply digits_snoc.
  assert (Hstrip : PyStr.strip (digits ++ "2") = digits ++ "2")
    by now apply strip_digits.
  assert (Hcard : card_fields (PyStr.strip (digits ++ "2"))
                  = Some (Raise ValueError)).
  { rewrite Hstrip, (card_fields_digits_only digits "2" Hne Hds eq_refl).
    rewrite (py_int_too_long digits Hds); [reflexivity | lia]. }
  split; [|split; [exact Hall|split; [exact Hstrip|split; [exact Hcard|]]]].
  - rewrite length_append, Nat2Z.inj_add, Hlen. reflexivity.
  - intros World resolve format_name st w. now apply process_line_raise.
Qed.

(** ** The resolver *)

Section ResolverProperties.

Context {World : Type}.
Variable requests_get : string -> World -> http_outcome * World.
Variable repr_container : pyval -> string.

Lemma get_card_id_failure (card_name : string) (format_name : option string)
      (w w' : World) (o : http_outcome) :
  requests_get (lookup_url card_name format_name) w = (o, w') ->
  lookup_failure o ->
  get_card_id requests_get repr_container card_name format_name w = (None, w').
Proof.
  intros Hget Hfail. unfold get_card_id, get_card_id_try. rewrite Hget.
  destruct Hfail; try reflexivity.
  - destruct (Z.eqb_spec status_code 200); [contradiction | reflexivity].
  - destruct doc; try discriminate; reflexivity.
  - simpl. now rewrite H.
  - simpl. now rewrite H.
  - simpl. rewrite H. destruct data as [| | | |s| |]; try discriminate;
      try reflexivity.
    now destruct s.
  - simpl. rewrite H. simpl. destruct first; try discriminate; reflexivity.
  - simpl. rewrite H. simpl. now rewrite H0.
Qed.

Lemma get_card_id_found (card_name : string) (format_name : option string)
      (w w' : World) (o : http_outcome) (id : pyval) :
  requests_get (lookup_url card_name format_name) w = (o, w') ->
  lookup_finds o id ->
  get_card_id requests_get repr_container card_name format_name w
  = (Some (py_str repr_container id), w').
Proof.
  intros Hget (items & fields & others & -> & Hdata & Hid).
  unfold get_card_id, get_card_id_try. rewrite Hget. simpl.
  rewrite Hdata. simpl. now rewrite Hid.
Qed.

End ResolverProperties.

(** The failures above are all there are: an answer that is not one of
    them carries an identifier. *)
Lemma lookup_fails_or_finds (o : http_outcome) :
  lookup_failure o \/ exists id, lookup_finds o id.
Proof.
  destruct o as [|status [doc|e]]; [left; constructor | | ].
  - destruct (Z.eq_dec status 200) as [->|N];
      [|left; now constructor].
    destruct doc as [| | | | |l|items];
      try (left; now apply document_not_object).
    destruct (dict_get items "data") as [data|] eqn:D;
      [|left; now apply result_set_absent].
    destruct data as [| | | | |l|l];
      try (left; now apply (result_set_not_list items _ D)).
    destruct l as [|first others]; [left; now apply result_set_empty|].
    destruct first as [| | | | |l|fields];
      try (left; now apply (first_match_not_object items _ _ D)).
    destruct (dict_get fields "id") as [id|] eqn:I.
    + right. exists id, items, fields, others. tauto.
    + left. now apply (identifier_absent items fields others).
  - destruct (Z.eq_dec status 200) as [->|N]; left; now constructor.
Qed.

(** C3, as the code has it.  Whenever the lookup of a name fails (the
    request raises, the status is not 200, the body is no JSON, or no value
    stands at [data['data'][0]['id']]), [get_card_id] returns [None] and
    raises nothing; for a card line with that name, the loop body then
    leaves the three decks and the current section as they were, and the
    lines that follow are processed from that same state.  Whenever a value
    stands at [data['data'][0]['id']], whatever its type, [get_card_id]
    returns [str] of it. *)
Theorem failed_lookup_is_skipped :
  forall (World : Type)
         (requests_get : string -> World -> http_outcome * World)
         (repr_container : pyval -> string)
         (format_name : option string) (card_name : string)
         (w w' : World) (o : http_outcome),
    requests_get (lookup_url card_name format_name) w = (o, w') ->
    let resolver := get_card_id requests_get repr_container in
    (lookup_failure o ->
     resolver card_name format_name w = (None, w')
     /\ forall (st : parser_state) (raw : string) (after : list string)
               (quantity : Z),
         card_fields (PyStr.strip raw) = Some (Ok (quantity, card_name)) ->
         process_line resolver format_name st raw w = (Ok st, w')
         /\ parse_lines resolver format_name (raw :: after) st w
            = parse_lines resolver format_name after st w')
    /\ (forall id : pyval,
           lookup_finds o id ->
           resolver card_name format_name w
           = (Some (py_str repr_container id), w')).
Proof.
  intros World requests_get repr_container format_name card_name w w' o
         Hget resolver.
  split; [|intros id Hid; eapply get_card_id_found; eauto].
  intro Hfail.
  assert (Hnone : resolver card_name format_name w = (None, w'))
    by (eapply get_card_id_failure; eauto).
  split; [exact Hnone|].
  intros st raw after quantity Hcard.
  assert (Hline : process_line resolver format_name st raw w = (Ok st, w'))
    by (rewrite (process_line_card _ _ _ _ _ _ _ Hcard), Hnone; reflexivity).
  split; [exact Hline|].
  simpl. now rewrite Hline.
Qed.

Lemma failed_lookup_is_skipped_witness :
  get_card_id unreachable_network (fun _ => "") "Pot of Greed" None tt
  = (None, tt)
  /\ process_line (get_card_id unreachable_network (fun _ => "")) None
                  initial_state "1x Pot of Greed" tt
     = (Ok initial_state, tt).
Proof.
  destruct (failed_lookup_is_skipped
              unit unreachable_network (fun _ => "") None "Pot of Greed"
              tt tt GetRaises eq_refl)
    as (H & _).
  destruct (H network_error) as (H1 & H2).
  split; [exact H1|].
  exact (proj1 (H2 initial_state "1x Pot of Greed" [] 1 eq_refl)).
Defined.

(** C3, as the spec has it, fails on an answer of an unexpected shape that
    still carries something at [data['data'][0]['id']]: for the identifier
    [null], [get_card_id] returns the text [None], not the value [None], and
    the parser adds that text to the deck like an identifier. *)
Lemma null_identifier_is_appended :
  get_card_id null_id_network (fun _ => "") "Pot of Greed" None tt
  = (Some "None", tt)
  /\ parse_deck_list (get_card_id null_id_network (fun _ => "")) None
                     "2 Pot of Greed" tt
     = (Ok (["None"; "None"], [], []), tt).
Proof. split; reflexivity. Qed.

(** ** The writer *)

Lemma concat_empty_cons (x : string) (l : list string) :
  String.concat "" (x :: l) = x ++ String.concat "" l.
Proof. destruct l; simpl; [now rewrite append_nil_r | reflexivity]. Qed.

Lemma ydk_text_blocks (main_deck extra_deck side_deck : list string) :
  ydk_text main_deck extra_deck side_deck
  = "#main" ++ PyStr.LF ++ PyStr.join PyStr.LF main_deck ++ PyStr.LF
    ++ optional_blocks extra_deck side_deck.
Proof.
  unfold ydk_text, ydk_writes, optional_blocks.
  cbn [app]. rewrite !concat_empty_cons.
  destruct extra_deck as [|e extra_deck], side_deck as [|s side_deck];
    cbn [app]; rewrite ?concat_empty_cons; cbn [String.concat];
    rewrite ?append_nil_r, ?append_assoc; cbn [append];
    rewrite ?append_nil_r, ?append_assoc; reflexivity.
Qed.

(** C7.  Whatever the decks, the first two writes are the [#main] header
    and the main identifiers joined, each with its line feed; the file
    starts with them.  With an empty main deck the join is empty, and the
    file starts with the header and an empty line. *)
Theorem main_block_always_written :
  forall (output_path : string) (main_deck extra_deck side_deck : list string)
         (fs : filesystem),
    can_write fs output_path = true ->
    exists (fs' : filesystem) (rest : string),
      write_ydk_file output_path main_deck extra_deck side_deck fs = Ok fs'
      /\ (exists later,
             ydk_writes main_deck extra_deck side_deck
             = ("#main" ++ PyStr.LF)
                 :: (PyStr.join PyStr.LF main_deck ++ PyStr.LF) :: later)
      /\ file fs' output_path
         = Some ("#main" ++ PyStr.LF
                 ++ PyStr.join PyStr.LF main_deck ++ PyStr.LF ++ rest)
      /\ (main_deck = [] ->
          file fs' output_path
          = Some ("#main" ++ PyStr.LF ++ PyStr.LF ++ rest)).
Proof.
  intros output_path main_deck extra_deck side_deck fs Hw.
  unfold write_ydk_file. rewrite Hw.
  eexists. exists (optional_blocks extra_deck side_deck).
  split; [reflexivity|]. split; [eexists; reflexivity|].
  cbn [file store]. rewrite String.eqb_refl, ydk_text_blocks.
  split; [reflexivity|]. now intros ->.
Qed.

Lemma main_block_always_written_witness :
  exists (fs' : filesystem) (rest : string),
    write_ydk_file "MyDeck.ydk" [] [] ["83764719"] empty_filesystem = Ok fs'
    /\ file fs' "MyDeck.ydk" = Some ("#main" ++ PyStr.LF ++ PyStr.LF ++ rest).
Proof.
  destruct (main_block_always_written
              "MyDeck.ydk" [] [] ["83764719"] empty_filesystem eq_refl)
    as (fs' & rest & H1 & _ & _ & H2).
  exists fs', rest. split; [exact H1 | exact (H2 eq_refl)].
Defined.

(** C5.  The deck list of the example, parsed with the stub resolver, gives
    one identifier for the main deck and the same identifier twice for the
    extra deck; the file written from them holds the main block, an empty
    line, and the extra block, and no side block. *)
Theorem example_deck_list_is_written :
  let deck_list :=
    "#main" ++ PyStr.LF ++ "1x Pot of Greed" ++ PyStr.LF
    ++ "#extra" ++ PyStr.LF ++ "2 Monster Reborn" ++ PyStr.LF ++ "DONE" in
  let text :=
    "#main" ++ PyStr.LF ++ "55144522" ++ PyStr.LF
    ++ PyStr.LF ++ "#extra" ++ PyStr.LF
    ++ "83764719" ++ PyStr.LF ++ "83764719" ++ PyStr.LF in
  parse_deck_list stub_resolver None deck_list tt
  = (Ok (["55144522"], ["83764719"; "83764719"], []), tt)
  /\ ydk_text ["55144522"] ["83764719"; "83764719"] [] = text
  /\ PyStr.splitlines text
     = ["#main"; "55144522"; ""; "#extra"; "83764719"; "83764719"]
  /\ exists fs',
      write_ydk_file "MyDeck.ydk" ["55144522"] ["83764719"; "83764719"] []
                     empty_filesystem = Ok fs'
      /\ file fs' "MyDeck.ydk" = Some text.
Proof.
  cbv zeta. repeat split.
  eexists. split; reflexivity.
Qed.

(** ** The layout of the file *)

Lemma digits_plain_line (s : string) :
  s <> "" -> PyStr.forallb PyChar.isdigit s = true -> plain_line s = true.
Proof.
  intros Hne Hs. unfold plain_line. apply andb_true_intro. split.
  - clear Hne. induction s as [|c s IH]; [reflexivity|]. simpl in *.
    apply andb_prop in Hs as [Hc Hs].
    now rewrite (digit_not_linebreak c Hc), IH.
  - destruct s as [|c s]; [congruence|]. simpl in Hs.
    apply andb_prop in Hs as [Hc _]. revert Hc. clear. each_char c.
Qed.

Lemma plain_line_no_break (s : string) :
  plain_line s = true ->
  PyStr.forallb (fun c => negb (PyChar.islinebreak c)) s = true.
Proof. unfold plain_line. intro H. now apply andb_prop in H. Qed.

Lemma plain_line_not_header (s : string) :
  plain_line s = true -> PyStr.is_empty s = false /\ ydk_header s = None.
Proof.
  unfold plain_line. intro H. apply andb_prop in H as [_ H].
  destruct s as [|c s]; [discriminate|].
  apply andb_prop in H as [H1 H2].
  apply negb_true_iff in H1, H2. split; [reflexivity|].
  unfold ydk_header. cbn [String.eqb]. now rewrite H1, H2.
Qed.

Lemma splitlines_line (l rest : string) :
  PyStr.forallb (fun c => negb (PyChar.islinebreak c)) l = true ->
  PyStr.splitlines (l ++ PyStr.LF ++ rest) = l :: PyStr.splitlines rest.
Proof.
  induction l as [|c l IH]; intro H.
  - reflexivity.
  - simpl in H. apply andb_prop in H as [Hc Hl].
    apply negb_true_iff in Hc.
    cbn [append PyStr.splitlines]. rewrite Hc.
    cbn [append] in IH. now rewrite (IH Hl).
Qed.

Lemma splitlines_lf (rest : string) :
  PyStr.splitlines (PyStr.LF ++ rest) = "" :: PyStr.splitlines rest.
Proof. reflexivity. Qed.

Lemma splitlines_join (deck : list string) (rest : string) :
  Forall (fun id => plain_line id = true) deck ->
  PyStr.splitlines (PyStr.join PyStr.LF deck ++ PyStr.LF ++ rest)
  = (main_lines deck ++ PyStr.splitlines rest)%list.
Proof.
  induction 1 as [|x deck Hx Hdeck IH]; [reflexivity|].
  destruct deck as [|y deck].
  - cbn [PyStr.join main_lines app].
    now rewrite splitlines_line by now apply plain_line_no_break.
  - change (PyStr.join PyStr.LF (x :: y :: deck))
      with (x ++ PyStr.LF ++ PyStr.join PyStr.LF (y :: deck)).
    rewrite !append_assoc.
    rewrite splitlines_line by now apply plain_line_no_break.
    rewrite IH. reflexivity.
Qed.

Lemma splitlines_block (header : string) (deck : list string) (rest : string) :
  PyStr.forallb (fun c => negb (PyChar.islinebreak c)) header = true ->
  Forall (fun id => plain_line id = true) deck ->
  PyStr.splitlines
    (match deck with
     | [] => ""
     | _ :: _ =>
         PyStr.LF ++ header ++ PyStr.LF
         ++ PyStr.join PyStr.LF deck ++ PyStr.LF
     end ++ rest)
  = (block_lines header deck ++ PyStr.splitlines rest)%list.
Proof.
  intros Hh Hdeck. destruct deck as [|x deck]; [reflexivity|].
  rewrite !append_assoc.
  rewrite splitlines_lf.
  rewrite splitlines_line by exact Hh.
  rewrite splitlines_join by exact Hdeck. reflexivity.
Qed.

(** The lines of the file, block by block. *)
Lemma ydk_text_lines (main_deck extra_deck side_deck : list string) :
  Forall (fun id => plain_line id = true) main_deck ->
  Forall (fun id => plain_line id = true) extra_deck ->
  Forall (fun id => plain_line id = true) side_deck ->
  PyStr.splitlines (ydk_text main_deck extra_deck side_deck)
  = ("#main" :: main_lines main_deck
       ++ block_lines "#extra" extra_deck
       ++ block_lines "!side" side_deck)%list.
Proof.
  intros Hm He Hs. rewrite ydk_text_blocks. unfold optional_blocks.
  rewrite (splitlines_line "#main" _ eq_refl).
  rewrite splitlines_join by exact Hm.
  rewrite (splitlines_block "#extra" extra_deck _ eq_refl He).
  rewrite <- (append_nil_r (match side_deck with [] => "" | _ :: _ => _ end)).
  rewrite (splitlines_block "!side" side_deck "" eq_refl Hs).
  cbn [PyStr.splitlines]. now rewrite app_nil_r.
Qed.

Lemma not_plain_not_in (x : string) (deck : list string) :
  plain_line x = false ->
  Forall (fun id => plain_line id = true) deck -> ~ In x deck.
Proof.
  intros Hx Hdeck Hin. rewrite Forall_forall in Hdeck.
  apply Hdeck in Hin. congruence.
Qed.

Lemma in_main_lines (x : string) (deck : list string) :
  In x (main_lines deck) -> x = "" \/ In x deck.
Proof.
  destruct deck; simpl; [intros [<- | []]; now left | now right].
Qed.

Lemma in_block_lines (x header : string) (deck : list string) :
  In x (block_lines header deck) <->
  deck <> [] /\ (x = "" \/ x = header \/ In x deck).
Proof.
  destruct deck as [|y deck]; simpl.
  - split; [tauto | intros [H _]; congruence].
  - split.
    + intros [<- | [<- | H]]; (split; [discriminate | tauto]).
    + intros [_ [<- | [<- | H]]]; tauto.
Qed.

(** Where an element stands in a list that holds it once. *)
Lemma split_at_unique {A : Type} (x : A) (l1 l2 before after : list A) :
  ~ In x l1 -> ~ In x l2 ->
  (l1 ++ x :: l2 = before ++ x :: after)%list -> before = l1.
Proof.
  revert before. induction l1 as [|y l1 IH]; intros before N1 N2 H.
  - destruct before as [|z before]; [reflexivity|].
    simpl in H. injection H as <- H. exfalso. apply N2. rewrite H.
    apply in_or_app. right. now left.
  - destruct before as [|z before]; simpl in H.
    + injection H as -> _. exfalso. apply N1. now left.
    + injection H as <- H. f_equal. apply IH; trivial.
      intro Hin. apply N1. now right.
Qed.

Section Layout.

Variables main_deck extra_deck side_deck : list string.
Hypothesis plain_main : Forall (fun id => plain_line id = true) main_deck.
Hypothesis plain_extra : Forall (fun id => plain_line id = true) extra_deck.
Hypothesis plain_side : Forall (fun id => plain_line id = true) side_deck.

Let lines := PyStr.splitlines (ydk_text main_deck extra_deck side_deck).

(** What a line of the file can be. *)
Lemma line_kinds (x : string) :
  In x lines ->
  x = "#main" \/ x = "" \/ plain_line x = true
  \/ (x = "#extra" /\ extra_deck <> []) \/ (x = "!side" /\ side_deck <> []).
Proof.
  unfold lines. rewrite ydk_text_lines by assumption.
  rewrite Forall_forall in plain_main, plain_extra, plain_side.
  intros [<- | H]; [tauto|].
  rewrite !in_app_iff, !in_block_lines in H.
  destruct H as [H | [[N H] | [N H]]].
  - apply in_main_lines in H as [-> | H]; intuition auto.
  - destruct H as [-> | [-> | H]]; intuition auto.
  - destruct H as [-> | [-> | H]]; intuition auto.
Qed.

Lemma header_lines :
  (In "#extra" lines <-> extra_deck <> [])
  /\ (In "!side" lines <-> side_deck <> []).
Proof.
  split; split.
  - intro H. apply line_kinds in H.
    destruct H as [H | [H | [H | [[_ H] | [H _]]]]];
      try discriminate; exact H.
  - intro N. unfold lines. rewrite ydk_text_lines by assumption.
    right. rewrite !in_app_iff, !in_block_lines. tauto.
  - intro H. apply line_kinds in H.
    destruct H as [H | [H | [H | [[H _] | [_ H]]]]];
      try discriminate; exact H.
  - intro N. unfold lines. rewrite ydk_text_lines by assumption.
    right. rewrite !in_app_iff, !in_block_lines. tauto.
Qed.

Lemma header_after_empty_line (before after : list string) (header : string) :
  lines = (before ++ header :: after)%list ->
  header = "#extra" \/ header = "!side" ->
  exists before', before = (before' ++ [""])%list.
Proof.
  intros Hsplit Hheader.
  assert (Hin : In header lines)
    by (rewrite Hsplit; apply in_or_app; right; now left).
  unfold lines in Hsplit. rewrite ydk_text_lines in Hsplit by assumption.
  destruct Hheader as [-> | ->].
  - apply header_lines in Hin.
    destruct extra_deck as [|e extra]; [congruence|].
    exists ("#main" :: main_lines main_deck).
    eapply split_at_unique with (l2 := (e :: extra
                                         ++ block_lines "!side" side_deck)%list);
      [ | | rewrite <- Hsplit; cbn [block_lines app];
            rewrite <- !app_assoc; reflexivity ].
    + rewrite in_app_iff. intros [[H | H] | [H | []]]; try discriminate.
      apply in_main_lines in H as [H | H]; [discriminate|].
      now apply (not_plain_not_in "#extra" main_deck).
    + change (e :: extra ++ block_lines "!side" side_deck)%list
        with ((e :: extra) ++ block_lines "!side" side_deck)%list.
      rewrite in_app_iff, in_block_lines.
      intros [H | [_ [H | [H | H]]]]; try discriminate.
      * now apply (not_plain_not_in "#extra" (e :: extra)).
      * now apply (not_plain_not_in "#extra" side_deck).
  - apply header_lines in Hin.
    destruct side_deck as [|s side]; [congruence|].
    exists ("#main" :: main_lines main_deck
              ++ block_lines "#extra" extra_deck)%list.
    eapply split_at_unique with (l2 := (s :: side)%list);
      [ | | rewrite <- Hsplit; cbn [block_lines app];
            rewrite <- !app_assoc; reflexivity ].
    + rewrite in_app_iff. cbn [In]. rewrite in_app_iff, in_block_lines.
      intros [[H | [H | [_ [H | [H | H]]]]] | [H | []]]; try discriminate.
      * apply in_main_lines in H as [H | H]; [discriminate|].
        now apply (not_plain_not_in "!side" main_deck).
      * now apply (not_plain_not_in "!side" extra_deck).
    + now apply (not_plain_not_in "!side" (s :: side)).
Qed.

End Layout.

(** C6.  For identifiers that are plain lines, the file has the line
    [#extra] exactly when the extra deck is not empty and the line [!side]
    exactly when the side deck is not empty; each of these two headers comes
    right after an empty line; and the headers are spelt [#main], [#extra]
    and [!side], never [#side], [!main] or [!extra]. *)
Theorem optional_blocks_iff_nonempty :
  forall main_deck extra_deck side_deck : list string,
    Forall (fun id => plain_line id = true) main_deck ->
    Forall (fun id => plain_line id = true) extra_deck ->
    Forall (fun id => plain_line id = true) side_deck ->
    let lines := PyStr.splitlines (ydk_text main_deck extra_deck side_deck) in
    (In "#extra" lines <-> extra_deck <> [])
    /\ (In "!side" lines <-> side_deck <> [])
    /\ (forall (before after : list string) (header : string),
           lines = (before ++ header :: after)%list ->
           header = "#extra" \/ header = "!side" ->
           exists before', before = (before' ++ [""])%list)
    /\ hd_error lines = Some "#main"
    /\ ~ In "#side" lines /\ ~ In "!main" lines /\ ~ In "!extra" lines.
Proof.
  intros main_deck extra_deck side_deck Hm He Hs lines.
  destruct (header_lines _ _ _ Hm He Hs) as [Hextra Hside].
  split; [exact Hextra|]. split; [exact Hside|].
  split; [apply header_after_empty_line; assumption|].
  split; [unfold lines; now rewrite ydk_text_lines|].
  repeat split; intro H; apply (line_kinds _ _ _ Hm He Hs) in H;
    destruct H as [H | [H | [H | [[H _] | [H _]]]]]; discriminate.
Qed.

Lemma optional_blocks_iff_nonempty_witness :
  In "#extra" (PyStr.splitlines
                 (ydk_text ["55144522"] ["83764719"; "83764719"] []))
  /\ ~ In "!side" (PyStr.splitlines
                     (ydk_text ["55144522"] ["83764719"; "83764719"] [])).
Proof.
  destruct (optional_blocks_iff_nonempty
              ["55144522"] ["83764719"; "83764719"] [])
    as (Hextra & Hside & _); [repeat constructor ..|].
  split.
  - apply Hextra. discriminate.
  - intro H. apply Hside in H. now apply H.
Defined.

(** ** Reading the file back *)

Lemma add_cards_spec (ids a b c : list string) (sec : section) :
  add_cards ids (mkState a b c sec)
  = match sec with
    | Main => mkState (a ++ ids) b c Main
    | Extra => mkState a (b ++ ids) c Extra
    | Side => mkState a b (c ++ ids) Side
    end.
Proof.
  unfold add_cards. revert a b c.
  induction ids as [|id ids IH]; intros a b c.
  - destruct sec; simpl; now rewrite app_nil_r.
  - destruct sec; simpl; unfold append_card; simpl; rewrite IH;
      now rewrite <- app_assoc.
Qed.

Lemma read_lines_cons (line : string) (lines : list string) (st : parser_state) :
  read_lines (line :: lines) st
  = read_lines lines
      (if PyStr.is_empty line then st
       else match ydk_header line with
            | Some sec => set_section sec st
            | None => append_card line st
            end).
Proof. reflexivity. Qed.

Lemma read_lines_plain (ids rest : list string) :
  Forall (fun id => plain_line id = true) ids ->
  forall st, read_lines (ids ++ rest) st = read_lines rest (add_cards ids st).
Proof.
  induction 1 as [|id ids Hid Hids IH]; intro st; [reflexivity|].
  destruct (plain_line_not_header id Hid) as [E N].
  cbn [app read_lines]. rewrite E, N. apply IH.
Qed.

Lemma read_main_lines (deck rest a b c : list string) :
  Forall (fun id => plain_line id = true) deck ->
  read_lines (main_lines deck ++ rest) (mkState a b c Main)
  = read_lines rest (mkState (a ++ deck) b c Main).
Proof.
  intro H. destruct deck as [|x deck].
  - simpl. now rewrite app_nil_r.
  - cbn [main_lines]. rewrite read_lines_plain by exact H.
    now rewrite add_cards_spec.
Qed.

Lemma read_block_lines (rest : list string) (st : parser_state)
      (header : string) (sec : section) (deck : list string) :
  ydk_header header = Some sec -> PyStr.is_empty header = false ->
  Forall (fun id => plain_line id = true) deck ->
  read_lines (block_lines header deck ++ rest) st
  = read_lines rest
      (match deck with
       | [] => st
       | _ :: _ => add_cards deck (set_section sec st)
       end).
Proof.
  intros Hh Hne H. destruct deck as [|x deck]; [reflexivity|].
  change (block_lines header (x :: deck) ++ rest)%list
    with ("" :: header :: ((x :: deck) ++ rest))%list.
  do 2 rewrite read_lines_cons. cbn [PyStr.is_empty]. rewrite Hne, Hh.
  now rewrite read_lines_plain by exact H.
Qed.

(** C1, as the code has it.  For identifiers that are plain lines, reading
    the written file back block by block gives the three decks again, in
    their order and with their repetitions. *)
Theorem written_file_reads_back :
  forall main_deck extra_deck side_deck : list string,
    Forall (fun id => plain_line id = true) main_deck ->
    Forall (fun id => plain_line id = true) extra_deck ->
    Forall (fun id => plain_line id = true) side_deck ->
    read_ydk (ydk_text main_deck extra_deck side_deck)
    = (main_deck, extra_deck, side_deck).
Proof.
  intros m e s Hm He Hs. unfold read_ydk.
  rewrite ydk_text_lines by assumption.
  cbn [read_lines PyStr.is_empty ydk_header String.eqb Ascii.eqb Bool.eqb].
  unfold initial_state, set_section. cbn [main_deck extra_deck side_deck].
  rewrite read_main_lines by exact Hm.
  rewrite (read_block_lines _ _ "#extra" Extra e eq_refl eq_refl He).
  rewrite <- (app_nil_r (block_lines "!side" s)).
  rewrite (read_block_lines _ _ "!side" Side s eq_refl eq_refl Hs).
  cbn [read_lines app].
  destruct e as [|x e], s as [|y s]; unfold set_section;
    rewrite ?add_cards_spec; reflexivity.
Qed.

Lemma written_file_reads_back_witness :
  read_ydk (ydk_text ["55144522"] ["83764719"; "83764719"] ["12345678"])
  = (["55144522"], ["83764719"; "83764719"], ["12345678"]).
Proof.
  apply (written_file_reads_back
           ["55144522"] ["83764719"; "83764719"] ["12345678"]);
    repeat constructor.
Defined.

(** C1, as the spec has it, fails when the file is given back to
    [parse_deck_list], the only parser of the program.  The main deck
    [12] and the side deck [34] are written as the lines below; the line
    [12] is read as one copy of the card named [2] and the line [34] as three
    copies of the card named [4], and [!side] is no header of the parser: so,
    whatever the resolver answers, the side deck comes back empty. *)
Lemma reparsing_the_file_differs :
  PyStr.splitlines (ydk_text ["12"] [] ["34"])
  = ["#main"; "12"; ""; "!side"; "34"]
  /\ card_fields "12" = Some (Ok (1, "2"))
  /\ card_fields "!side" = None
  /\ card_fields "34" = Some (Ok (3, "4"))
  /\ forall (World : Type)
            (resolve : string -> option string -> World -> option string * World)
            (format_name : option string) (w : World),
      exists (main_deck extra_deck : list string) (w' : World),
        parse_deck_list resolve format_name (ydk_text ["12"] [] ["34"]) w
        = (Ok (main_deck, extra_deck, []), w')
        /\ (main_deck, extra_deck, @nil string) <> (["12"], [], ["34"]).
Proof.
  repeat split.
  intros World resolve format_name w. unfold parse_deck_list.
  replace (PyStr.splitlines (ydk_text ["12"] [] ["34"]))
    with ["#main"; "12"; ""; "!side"; "34"] by reflexivity.
  cbn [parse_lines].
  replace (process_line resolve format_name initial_state "#main" w)
    with (Ok initial_state, w) by reflexivity.
  rewrite (process_line_card resolve format_name initial_state "12" w 1 "2")
    by reflexivity.
  set (st1 := match fst (resolve "2" format_name w) with
              | Some id => _
              | None => _
              end).
  set (w1 := snd (resolve "2" format_name w)).
  replace (process_line resolve format_name st1 "" w1)
    with (Ok st1, w1) by reflexivity.
  replace (process_line resolve format_name st1 "!side" w1)
    with (Ok st1, w1) by reflexivity.
  rewrite (process_line_card resolve format_name st1 "34" w1 3 "4")
    by reflexivity.
  assert (Hst1 : current_section st1 = Main /\ side_deck st1 = []).
  { subst st1. destruct (fst (resolve "2" format_name w)) as [id|];
      [destruct (PyStr.truthy id)|]; split; reflexivity. }
  destruct Hst1 as [Hsec Hside].
  set (st2 := match fst (resolve "4" format_name w1) with
              | Some id => _
              | None => _
              end).
  assert (Hst2 : side_deck st2 = []).
  { subst st2. destruct (fst (resolve "4" format_name w1)) as [id|];
      [destruct (PyStr.truthy id)|]; trivial.
    destruct st1 as [a b c sec]. simpl in Hsec, Hside. subst sec c.
    reflexivity. }
  exists (main_deck st2), (extra_deck st2), (snd (resolve "4" format_name w1)).
  rewrite Hst2. split; [reflexivity | discriminate].
Qed.

(** ** The command line *)

Lemma read_deck_list_until_done (lines : list string) (typed_done : string)
      (rest : list string) :
  Forall (fun line =>
            String.eqb (PyStr.lower (PyStr.strip line)) "done" = false) lines ->
  String.eqb (PyStr.lower (PyStr.strip typed_done)) "done" = true ->
  forall deck_list,
    read_deck_list (lines ++ typed_done :: rest) deck_list
    = Ok ((deck_list ++ lines)%list, rest).
Proof.
  intros Hlines Hdone.
  induction Hlines as [|line lines Hline Hlines IH]; intro deck_list; simpl.
  - now rewrite Hdone, app_nil_r.
  - rewrite Hline, IH, <- app_assoc. reflexivity.
Qed.

(** A run of [main]: the format, the lines of the deck list, the line that
    ends it, and the name of the file.  The deck list is parsed and the
    decks are written to the file of that name, made absolute. *)
Lemma main_run {World : Type}
      (requests_get : string -> World -> http_outcome * World)
      (repr_container : pyval -> string) (abspath : string -> string)
      (typed_format typed_done typed_name : string)
      (lines more : list string) (w : World) (fs : filesystem) :
  Forall (fun line =>
            String.eqb (PyStr.lower (PyStr.strip line)) "done" = false) lines ->
  String.eqb (PyStr.lower (PyStr.strip typed_done)) "done" = true ->
  main requests_get repr_container abspath
       (typed_format :: lines ++ typed_done :: typed_name :: more) w fs
  = match parse_deck_list (get_card_id requests_get repr_container)
            (Some (PyStr.strip typed_format))
            (PyStr.join PyStr.LF lines) w with
    | (Raise e, w') => (Raise e, w')
    | (Ok (main_deck, extra_deck, side_deck), w') =>
        (fs' <- write_ydk_file (abspath (output_file_name typed_name))
                  main_deck extra_deck side_deck fs ;;
         Ok (abspath (output_file_name typed_name), fs'), w')
    end.
Proof.
  intros Hlines Hdone. unfold main.
  rewrite (read_deck_list_until_done _ _ _ Hlines Hdone). reflexivity.
Qed.

(** The example of the spec, typed at the console with no format, one
    unknown card, and the file name [MyDeck]. *)
Example main_example :
  exists fs',
    main two_card_network (fun _ => "") (fun p => "/decks/" ++ p)
         [""; "#main"; "1x Pot of Greed"; "3 Unknown Card"; "#extra";
          "2 Monster Reborn"; "DONE"; "MyDeck"]
         tt empty_filesystem
    = (Ok ("/decks/MyDeck.ydk", fs'), tt)
    /\ file fs' "/decks/MyDeck.ydk"
       = Some ("#main" ++ PyStr.LF ++ "55144522" ++ PyStr.LF
               ++ PyStr.LF ++ "#extra" ++ PyStr.LF
               ++ "83764719" ++ PyStr.LF ++ "83764719" ++ PyStr.LF).
Proof. eexists. split; reflexivity. Qed.

(** ** Further properties *)



(** X2.  A blank line changes nothing, and a header line only sets the
    current section: neither adds an identifier to a deck, and neither asks
    the resolver anything. *)
Theorem blank_and_header_lines_add_nothing :
  forall (World : Type)
         (resolve : string -> option string -> World -> option string * World)
         (format_name : option string) (st : parser_state) (raw : string)
         (w : World),
    let line := PyStr.strip raw in
    let after := process_line resolve format_name st raw w in
    (line = "" -> after = (Ok st, w))
    /\ (PyStr.lower line = "#main" -> after = (Ok (set_section Main st), w))
    /\ (PyStr.lower line = "#extra" -> after = (Ok (set_section Extra st), w))
    /\ (PyStr.lower line = "#side" -> after = (Ok (set_section Side st), w)).
Proof.
  intros World resolve format_name st raw w line after.
  subst after. unfold process_line. fold line.
  repeat split; intro H.
  - now rewrite H.
  - destruct line; [discriminate|]. now rewrite H.
  - destruct line; [discriminate|]. now rewrite H.
  - destruct line; [discriminate|]. now rewrite H.
Qed.

(** X3.  [get_card_id] never raises, and what it returns is decided by the
    answer of the request: [None] for a failed lookup, and otherwise [str]
    of the value that stands at [data['data'][0]['id']]. *)
Theorem get_card_id_total :
  forall (World : Type)
         (requests_get : string -> World -> http_outcome * World)
         (repr_container : pyval -> string)
         (card_name : string) (format_name : option string) (w : World),
    let answer := requests_get (lookup_url card_name format_name) w in
    let returned :=
      get_card_id requests_get repr_container card_name format_name w in
    (lookup_failure (fst answer) /\ returned = (None, snd answer))
    \/ (exists id, lookup_finds (fst answer) id
                   /\ returned = (Some (py_str repr_container id), snd answer)).
Proof.
  intros World requests_get repr_container card_name format_name w
         answer returned.
  subst returned.
  destruct (requests_get (lookup_url card_name format_name) w) as [o w'] eqn:E.
  subst answer. cbn [fst snd].
  destruct (lookup_fails_or_finds o) as [F | [id F]].
  - left. split; [exact F|]. eapply get_card_id_failure; eauto.
  - right. exists id. split; [exact F|]. eapply get_card_id_found; eauto.
Qed.

(** ** The accepted forms of a card line *)

Lemma card_regex_branches (line : string) :
  re_match card_regex line
  = match left_branch line with
    | Some m => Some m
    | None => right_branch line
    end.
Proof.
  unfold re_match, card_regex. cbn [run]. rewrite Nat.eqb_refl. reflexivity.
Qed.

Lemma xX_not_digit (c : ascii) :
  PyChar.is_xX c = true -> PyChar.isdigit c = false.
Proof. each_char c. Qed.

Lemma xX_not_space (c : ascii) :
  PyChar.is_xX c = true -> PyChar.isspace c = false.
Proof. each_char c. Qed.

Lemma space_not_digit (c : ascii) :
  PyChar.isspace c = true -> PyChar.isdigit c = false.
Proof. each_char c. Qed.

Lemma space_not_xX (c : ascii) :
  PyChar.isspace c = true -> PyChar.is_xX c = false.
Proof. each_char c. Qed.

Lemma consumed_nil (s : string) : consumed s "" = s.
Proof.
  rewrite <- (append_nil_r s) at 1. apply consumed_append.
Qed.

Lemma name_and_end_all (name : string) (g : groups) :
  name <> "" -> PyStr.forallb PyChar.isdot name = true ->
  name_and_end name g = Some ((3%nat, name) :: g).
Proof.
  intros Hne Hdot. unfold name_and_end.
  set (k := fun s' : string =>
              if PyStr.is_empty s' || String.eqb s' PyStr.LF
              then Some ((3%nat, consumed name s') :: g) else None).
  assert (H : rep PyChar.isdot 1 (name ++ "") k = Some ((3%nat, name) :: g)).
  { apply rep_longest; trivial.
    - exact I.
    - subst k. cbn. now rewrite consumed_nil.
    - destruct name; [congruence | simpl; lia]. }
  now rewrite append_nil_r in H.
Qed.

Lemma after_spaces_name (g : groups) (spaces name : string) :
  PyStr.forallb PyChar.isspace spaces = true ->
  stops PyChar.isspace name ->
  name <> "" -> PyStr.forallb PyChar.isdot name = true ->
  after_spaces g (spaces ++ name) = Some ((3%nat, name) :: g).
Proof.
  intros Hsp Hstop Hne Hdot. unfold after_spaces.
  apply rep_longest; trivial.
  - now apply name_and_end_all.
  - lia.
Qed.

Lemma after_digits_marker (g m : groups) (x : ascii) (rest : string) :
  PyChar.is_xX x = true -> after_spaces g rest = Some m ->
  after_digits g (String x rest) = Some m.
Proof. intros Hx H. unfold after_digits. now rewrite Hx, H. Qed.

Lemma after_digits_no_marker (g : groups) (s : string) :
  stops PyChar.is_xX s -> after_digits g s = after_spaces g s.
Proof.
  unfold after_digits. destruct s as [|c s]; simpl; [reflexivity|].
  now intros ->.
Qed.

Lemma left_branch_digits (digits rest : string) (m : groups) :
  digits <> "" -> PyStr.forallb PyChar.isdigit digits = true ->
  stops PyChar.isdigit rest ->
  after_digits [(1%nat, digits)] rest = Some m ->
  left_branch (digits ++ rest) = Some m.
Proof.
  intros Hne Hds Hstop Hafter. unfold left_branch.
  rewrite (rep_stops PyChar.isspace) by now apply digits_stop_spaces.
  apply rep_longest; trivial.
  - now rewrite consumed_append.
  - destruct digits; [congruence | simpl; lia].
Qed.

Lemma left_branch_marker_first (x : ascii) (rest : string) :
  PyChar.is_xX x = true -> left_branch (String x rest) = None.
Proof.
  intro Hx. unfold left_branch. cbn [rep Nat.eqb].
  now rewrite (xX_not_space x Hx), (xX_not_digit x Hx).
Qed.

Lemma right_branch_digits (x : ascii) (digits rest : string) (m : groups) :
  PyChar.is_xX x = true ->
  digits <> "" -> PyStr.forallb PyChar.isdigit digits = true ->
  stops PyChar.isdigit rest ->
  after_spaces [(2%nat, digits)] rest = Some m ->
  right_branch (String x (digits ++ rest)) = Some m.
Proof.
  intros Hx Hne Hds Hstop Hafter. unfold right_branch.
  rewrite (rep_stops PyChar.isspace) by (simpl; now apply xX_not_space).
  rewrite Hx. apply rep_longest; trivial.
  - now rewrite consumed_append.
  - destruct digits; [congruence | simpl; lia].
Qed.

(** The fields of a match in which group 1, or group 2, holds [digits],
    few enough for [int], and group 3 holds [name]. *)
Lemma card_fields_of_match (line digits name : string) (i : nat) :
  i = 1%nat \/ i = 2%nat ->
  digits <> "" -> PyStr.forallb PyChar.isdigit digits = true ->
  Z.of_nat (String.length digits) <= int_max_str_digits ->
  re_match card_regex line = Some [(3%nat, name); (i, digits)] ->
  exists quantity,
    int_digits 0 digits = Some quantity
    /\ card_fields line = Some (Ok (quantity, PyStr.strip name)).
Proof.
  intros Hi Hne Hds Hlen Hm.
  destruct (py_int_digits digits Hne Hds Hlen) as (q & Eq & Hq & _).
  exists q. split; [exact Eq|].
  now rewrite (card_fields_of_groups _ _ _ _ Hi Hne Hm), Hq.
Qed.

Lemma blanks_stop (p : ascii -> bool) (spaces rest : string) :
  (forall c, PyChar.isspace c = true -> p c = false) ->
  spaces <> "" -> PyStr.forallb PyChar.isspace spaces = true ->
  stops p (spaces ++ rest).
Proof.
  intros Hp Hne Hsp. destruct spaces as [|c spaces]; [congruence|].
  simpl in *. apply andb_prop in Hsp as [Hc _]. now apply Hp.
Qed.

(** X4.  The forms of a card line: a quantity followed by the marker [x]
    or [X], by blanks, by both or by nothing, or the marker followed by the
    quantity; then the name.  In each form, for digits that [int] takes
    (no more than [int_max_str_digits] of them), the quantity is [int] of
    the digits and the card name is the name, trimmed. *)
Theorem card_line_forms :
  forall (digits spaces name : string) (x : ascii),
    digits <> "" ->
    PyStr.forallb PyChar.isdigit digits = true ->
    Z.of_nat (String.length digits) <= int_max_str_digits ->
    PyChar.is_xX x = true ->
    PyStr.forallb PyChar.isspace spaces = true ->
    name <> "" ->
    PyStr.forallb PyChar.isdot name = true ->
    stops PyChar.isspace name ->
    exists quantity : Z,
      int_digits 0 digits = Some quantity
      /\ card_fields (digits ++ String x (spaces ++ name))
         = Some (Ok (quantity, PyStr.strip name))
      /\ (spaces <> "" ->
          card_fields (digits ++ spaces ++ name)
          = Some (Ok (quantity, PyStr.strip name)))
      /\ (stops PyChar.isdigit name -> stops PyChar.is_xX name ->
          card_fields (digits ++ name)
          = Some (Ok (quantity, PyStr.strip name)))
      /\ (spaces <> "" \/ stops PyChar.isdigit name ->
          card_fields (String x (digits ++ spaces ++ name))
          = Some (Ok (quantity, PyStr.strip name))).
Proof.
  intros digits spaces name x Hne Hds Hlen Hx Hsp Hname Hdot Hstop.
  destruct (py_int_digits digits Hne Hds Hlen) as (q & Eq & _).
  assert (Fields : forall line i,
             i = 1%nat \/ i = 2%nat ->
             re_match card_regex line = Some [(3%nat, name); (i, digits)] ->
             card_fields line = Some (Ok (q, PyStr.strip name))).
  { intros line i Hi Hm.
    destruct (card_fields_of_match line digits name i Hi Hne Hds Hlen Hm)
      as (q' & Eq' & Hf).
    congruence. }
  exists q. split; [exact Eq|]. repeat split.
  - apply (Fields _ 1%nat); [now left|].
    rewrite card_regex_branches; erewrite (left_branch_digits digits _ _ Hne Hds);
      [reflexivity | simpl; now apply xX_not_digit |].
    apply after_digits_marker; [exact Hx|].
    now apply after_spaces_name.
  - intro Hblank. apply (Fields _ 1%nat); [now left|].
    rewrite card_regex_branches; erewrite (left_branch_digits digits _ _ Hne Hds);
      [reflexivity | now apply blanks_stop; [apply space_not_digit | |] |].
    rewrite after_digits_no_marker
      by now apply blanks_stop; [apply space_not_xX | |].
    now apply after_spaces_name.
  - intros Hnd Hnx. apply (Fields _ 1%nat); [now left|].
    rewrite card_regex_branches; erewrite (left_branch_digits digits _ _ Hne Hds);
      [reflexivity | exact Hnd |].
    rewrite after_digits_no_marker by exact Hnx.
    now apply (after_spaces_name _ "" name).
  - intro Hsep. apply (Fields _ 2%nat); [now right|].
    rewrite card_regex_branches, (left_branch_marker_first x _ Hx).
    apply right_branch_digits; trivial.
    + destruct spaces as [|c spaces].
      * destruct Hsep as [Hsep | Hsep]; [exfalso; now apply Hsep | exact Hsep].
      * now apply blanks_stop; [apply space_not_digit | |].
    + now apply after_spaces_name.
Qed.

Lemma card_line_forms_witness :
  card_fields "2x Pot of Greed" = Some (Ok (2, "Pot of Greed"))
  /\ card_fields "2 Pot of Greed" = Some (Ok (2, "Pot of Greed"))
  /\ card_fields "x2 Pot of Greed" = Some (Ok (2, "Pot of Greed")).
Proof.
  destruct (card_line_forms "2" " " "Pot of Greed" "x"%char)
    as (q & Hq & H1 & H2 & _ & H4);
    [discriminate | reflexivity | vm_compute; discriminate | reflexivity
     | reflexivity | discriminate | reflexivity | reflexivity |].
  assert (q = 2) as -> by (vm_compute in Hq; congruence).
  split; [exact H1|]. split; [apply H2; discriminate|].
  apply H4. left. discriminate.
Defined.

Lemma xX_is_dot (c : ascii) :
  PyChar.is_xX c = true -> PyChar.isdot c = true.
Proof. each_char c. Qed.

Lemma after_spaces_nil (g : groups) : after_spaces g "" = None.
Proof. reflexivity. Qed.

Lemma after_spaces_one (g : groups) (c : ascii) :
  PyChar.isspace c = false -> PyChar.isdot c = true ->
  after_spaces g (String c "") = Some ((3%nat, String c "") :: g).
Proof.
  intros Hs Hd.
  apply (after_spaces_name g "" (String c "")); trivial;
    [discriminate | simpl; now rewrite Hd].
Qed.

Lemma strip_one (c : ascii) :
  PyChar.isspace c = false -> PyStr.strip (String c "") = String c "".
Proof. intro H. unfold PyStr.strip. simpl. rewrite H. simpl. now rewrite H. Qed.

(** X5.  A quantity with no name after it, of digits that [int] takes (no
    more than [int_max_str_digits] of them).  When the marker follows the
    digits, the marker is taken for the name; when the marker comes first,
    the last digit is given back and taken for the name; a single digit,
    alone or after the marker, and the marker alone are no card lines. *)
Theorem quantity_without_name :
  forall (digits : string) (x last : ascii),
    digits <> "" ->
    PyStr.forallb PyChar.isdigit digits = true ->
    Z.of_nat (String.length digits) <= int_max_str_digits ->
    PyChar.is_xX x = true ->
    PyChar.isdigit last = true ->
    exists quantity : Z,
      int_digits 0 digits = Some quantity
      /\ card_fields (digits ++ String x "")
         = Some (Ok (quantity, String x ""))
      /\ card_fields (String x (digits ++ String last ""))
         = Some (Ok (quantity, String last ""))
      /\ card_fields (String last "") = None
      /\ card_fields (String x (String last "")) = None
      /\ card_fields (String x "") = None.
Proof.
  intros digits x last Hne Hds Hlen Hx Hlast.
  destruct (py_int_digits digits Hne Hds Hlen) as (q & Eq & _).
  pose proof (xX_not_space x Hx) as Hxs.
  pose proof (xX_not_digit x Hx) as Hxd.
  pose proof (digit_not_space last Hlast) as Hls.
  pose proof (digit_not_xX last Hlast) as Hlx.
  exists q. split; [exact Eq|]. repeat split.
  - destruct (card_fields_of_match (digits ++ String x "") digits
                (String x "") 1%nat) as (q' & Eq' & Hf);
      [now left | exact Hne | exact Hds | exact Hlen | | ].
    + rewrite card_regex_branches.
      erewrite (left_branch_digits digits _ _ Hne Hds);
        [reflexivity | exact Hxd |].
      unfold after_digits. rewrite Hx, after_spaces_nil.
      apply after_spaces_one; [exact Hxs | now apply xX_is_dot].
    + rewrite (strip_one x Hxs) in Hf. congruence.
  - destruct (card_fields_of_match (String x (digits ++ String last ""))
                digits (String last "") 2%nat) as (q' & Eq' & Hf);
      [now right | exact Hne | exact Hds | exact Hlen | | ].
    + rewrite card_regex_branches, (left_branch_marker_first x _ Hx).
      unfold right_branch.
      rewrite (rep_stops PyChar.isspace) by exact Hxs.
      rewrite Hx.
      apply rep_gives_back_one; trivial.
      * rewrite consumed_append.
        apply after_spaces_one; [exact Hls | now apply digit_is_dot].
      * destruct digits; [congruence | simpl; lia].
    + rewrite (strip_one last Hls) in Hf. congruence.
  - unfold card_fields. rewrite card_regex_branches.
    unfold left_branch, right_branch, after_digits.
    cbn [rep Nat.eqb Nat.pred]. rewrite Hls, Hlast, Hlx. reflexivity.
  - unfold card_fields.
    rewrite card_regex_branches, (left_branch_marker_first x _ Hx).
    unfold right_branch. cbn [rep Nat.eqb Nat.pred].
    rewrite Hxs, Hx, Hlast. reflexivity.
  - unfold card_fields.
    rewrite card_regex_branches, (left_branch_marker_first x _ Hx).
    unfold right_branch. cbn [rep Nat.eqb Nat.pred].
    rewrite Hxs, Hx. reflexivity.
Qed.

Lemma quantity_without_name_witness :
  card_fields "3x" = Some (Ok (3, "x"))
  /\ card_fields "x34" = Some (Ok (3, "4"))
  /\ card_fields "4" = None
  /\ card_fields "x4" = None.
Proof.
  destruct (quantity_without_name "3" "x"%char "4"%char)
    as (q & Hq & H1 & H2 & H3 & H4 & _);
    [discriminate | reflexivity | vm_compute; discriminate | reflexivity
     | reflexivity |].
  assert (q = 3) as -> by (vm_compute in Hq; congruence).
  repeat split; assumption.
Defined.

(** ** Lines that are no card lines *)

Lemma lstrip_stops (s : string) : stops PyChar.isspace (PyStr.lstrip s).
Proof.
  induction s as [|c s IH]; simpl; [exact I|].
  destruct (PyChar.isspace c) eqn:E; [exact IH | exact E].
Qed.

Lemma rstrip_stops (s : string) :
  stops PyChar.isspace s -> stops PyChar.isspace (PyStr.rstrip s).
Proof.
  destruct s as [|c s]; simpl; [trivial|]. intro H.
  rewrite H, andb_false_r. exact H.
Qed.

Lemma strip_stops (s : string) : stops PyChar.isspace (PyStr.strip s).
Proof. apply rstrip_stops, lstrip_stops. Qed.

Lemma no_opener_no_card (line : string) :
  opener line = false -> card_fields line = None.
Proof.
  intro H. destruct (card_fields line) as [r|] eqn:E; [|reflexivity].
  apply card_fields_opener in E. congruence.
Qed.

(** X6.  A line that, once trimmed, starts with neither a digit nor the
    marker is no card line: unless it is a header it changes nothing, and a
    header only sets the current section; no deck changes and the resolver
    is not asked. *)
Theorem line_without_quantity_is_ignored :
  forall (World : Type)
         (resolve : string -> option string -> World -> option string * World)
         (format_name : option string) (st : parser_state) (raw : string)
         (w : World),
    stops PyChar.isdigit (PyStr.strip raw) ->
    stops PyChar.is_xX (PyStr.strip raw) ->
    card_fields (PyStr.strip raw) = None
    /\ exists st' : parser_state,
        process_line resolve format_name st raw w = (Ok st', w)
        /\ main_deck st' = main_deck st
        /\ extra_deck st' = extra_deck st
        /\ side_deck st' = side_deck st
        /\ (String.eqb (PyStr.lower (PyStr.strip raw)) "#main" = false ->
            String.eqb (PyStr.lower (PyStr.strip raw)) "#extra" = false ->
            String.eqb (PyStr.lower (PyStr.strip raw)) "#side" = false ->
            st' = st).
Proof.
  intros World resolve format_name st raw w Hd Hx.
  assert (Hcard : card_fields (PyStr.strip raw) = None).
  { apply no_opener_no_card. pose proof (strip_stops raw) as Hs.
    destruct (PyStr.strip raw) as [|c line]; [reflexivity|].
    simpl in *. now rewrite Hs, Hd, Hx. }
  split; [exact Hcard|].
  unfold process_line. rewrite Hcard.
  destruct (PyStr.is_empty (PyStr.strip raw));
    [exists st; repeat split; trivial|].
  destruct (String.eqb (PyStr.lower (PyStr.strip raw)) "#main");
    [eexists; repeat split; discriminate|].
  destruct (String.eqb (PyStr.lower (PyStr.strip raw)) "#extra");
    [eexists; repeat split; discriminate|].
  destruct (String.eqb (PyStr.lower (PyStr.strip raw)) "#side");
    [eexists; repeat split; discriminate|].
  exists st. repeat split; trivial.
Qed.

Lemma line_without_quantity_is_ignored_witness :
  card_fields (PyStr.strip "  Pot of Greed ") = None
  /\ process_line stub_resolver None initial_state "  Pot of Greed " tt
     = (Ok initial_state, tt).
Proof.
  destruct (line_without_quantity_is_ignored
              unit stub_resolver None initial_state "  Pot of Greed " tt
              eq_refl eq_refl)
    as (H1 & st' & H2 & _ & _ & _ & H3).
  split; [exact H1|].
  rewrite H2. now rewrite (H3 eq_refl eq_refl eq_refl).
Defined.

(** ** Sections and their decks *)

Section SectionInvariant.

Context {World : Type}.
Variable resolve : string -> option string -> World -> option string * World.
Variable format_name : option string.
Variable sec : section.

(** A line that is not the header of [sec] leaves the deck of [sec] alone
    as long as [sec] is not the current section, and does not make it
    current. *)
Lemma process_line_other_section (st st' : parser_state) (raw : string)
      (w w' : World) :
  current_section st <> sec ->
  String.eqb (PyStr.lower (PyStr.strip raw)) (parser_header sec) = false ->
  process_line resolve format_name st raw w = (Ok st', w') ->
  deck_of sec st' = deck_of sec st /\ current_section st' <> sec.
Proof.
  intros Hcur Hhead. unfold process_line.
  destruct (PyStr.is_empty (PyStr.strip raw));
    [intro H; injection H as <- _; tauto|].
  destruct (String.eqb (PyStr.lower (PyStr.strip raw)) "#main") eqn:E1.
  { intro H; injection H as <- _. split; [now destruct sec|].
    destruct sec; simpl in *; congruence. }
  destruct (String.eqb (PyStr.lower (PyStr.strip raw)) "#extra") eqn:E2.
  { intro H; injection H as <- _. split; [now destruct sec|].
    destruct sec; simpl in *; congruence. }
  destruct (String.eqb (PyStr.lower (PyStr.strip raw)) "#side") eqn:E3.
  { intro H; injection H as <- _. split; [now destruct sec|].
    destruct sec; simpl in *; congruence. }
  destruct (card_fields (PyStr.strip raw)) as [[[q name]|e]|];
    [ | discriminate | intro H; injection H as <- _; tauto ].
  destruct (resolve name format_name w) as [[id|] w1];
    intro H; injection H as <- _; [|tauto].
  destruct (PyStr.truthy id); [|tauto].
  destruct (iter_append_card id st (Z.to_nat q)) as (Hsec & _ & Hother).
  split; [apply Hother; congruence | congruence].
Qed.

Lemma parse_lines_other_section (lines : list string) :
  Forall (fun raw =>
            String.eqb (PyStr.lower (PyStr.strip raw)) (parser_header sec)
            = false) lines ->
  forall st st' w w',
    current_section st <> sec ->
    parse_lines resolve format_name lines st w = (Ok st', w') ->
    deck_of sec st' = deck_of sec st /\ current_section st' <> sec.
Proof.
  induction 1 as [|raw lines Hraw Hlines IH]; intros st st' w w' Hcur H;
    simpl in H.
  - injection H as <- _. tauto.
  - destruct (process_line resolve format_name st raw w) as [[st1|e] w1] eqn:P;
      [|discriminate].
    destruct (process_line_other_section _ _ _ _ _ Hcur Hraw P) as [D1 C1].
    destruct (IH _ _ _ _ C1 H) as [D2 C2]. split; congruence.
Qed.

End SectionInvariant.

(** X7.  A deck changes only while its section is the current one, and a
    section becomes current only by its header: when the loop returns over
    lines none of which is the header of a section that is not current, the
    deck of that section is as it was and the section still not current.
    So a deck list without [#extra] gives no extra deck, and one without
    [#side] no side deck. *)
Theorem deck_needs_its_header :
  forall (World : Type)
         (resolve : string -> option string -> World -> option string * World)
         (format_name : option string) (sec : section)
         (lines : list string) (st st' : parser_state) (w w' : World),
    current_section st <> sec ->
    Forall (fun raw =>
              String.eqb (PyStr.lower (PyStr.strip raw)) (parser_header sec)
              = false) lines ->
    parse_lines resolve format_name lines st w = (Ok st', w') ->
    deck_of sec st' = deck_of sec st /\ current_section st' <> sec.
Proof.
  intros World resolve format_name sec lines st st' w w' Hcur Hlines H.
  eapply parse_lines_other_section; eauto.
Qed.

Lemma deck_needs_its_header_witness :
  parse_lines stub_resolver None
              ["1x Pot of Greed"; "#extra"; "2 Monster Reborn"; "!side";
               "1 Pot of Greed"]
              initial_state tt
  = (Ok (mkState ["55144522"] ["83764719"; "83764719"; "55144522"] []
                 Extra), tt)
  /\ deck_of Side (mkState ["55144522"]
                           ["83764719"; "83764719"; "55144522"] [] Extra)
     = deck_of Side initial_state
  /\ current_section (mkState ["55144522"]
                              ["83764719"; "83764719"; "55144522"] [] Extra)
     <> Side.
Proof.
  split; [reflexivity|].
  apply (deck_needs_its_header
           unit stub_resolver None Side
           ["1x Pot of Greed"; "#extra"; "2 Monster Reborn"; "!side";
            "1 Pot of Greed"]
           initial_state
           (mkState ["55144522"] ["83764719"; "83764719"; "55144522"] []
                    Extra)
           tt tt);
    [discriminate | repeat constructor | reflexivity].
Defined.

(** ** The identifiers of the decks *)

Section DeckInvariant.

Context {World : Type}.
Variable resolve : string -> option string -> World -> option string * World.
Variable format_name : option string.

(** No deck of [st] holds an empty identifier. *)
Let sound (st : parser_state) : Prop :=
  forall sec, Forall (fun id => id <> "") (deck_of sec st).

Lemma process_line_no_empty_identifier (st st' : parser_state) (raw : string)
      (w w' : World) :
  sound st ->
  process_line resolve format_name st raw w = (Ok st', w') -> sound st'.
Proof.
  intros Hst. unfold process_line.
  repeat match goal with
         | |- context [if ?b then _ else _] => destruct b
         end;
    try (intro H; injection H as <- _; try exact Hst;
         intros []; apply (Hst _)).
  destruct (card_fields (PyStr.strip raw)) as [[[q name]|e]|];
    [ | discriminate | intro H; injection H as <- _; exact Hst ].
  destruct (resolve name format_name w) as [[id|] w1];
    intro H; injection H as <- _; [|exact Hst].
  destruct (PyStr.truthy id) eqn:T; [|exact Hst].
  destruct (iter_append_card id st (Z.to_nat q)) as (_ & Hdeck & Hother).
  intro sec. destruct (section_eq_dec sec (current_section st)) as [-> | N].
  - rewrite Hdeck. apply Forall_app. split; [apply Hst|].
    apply Forall_forall. intros y Hy. apply repeat_spec in Hy. subst y.
    now destruct id.
  - rewrite (Hother _ N). apply Hst.
Qed.

Lemma parse_lines_no_empty_identifier (lines : list string) :
  forall st st' w w',
    sound st ->
    parse_lines resolve format_name lines st w = (Ok st', w') -> sound st'.
Proof.
  induction lines as [|raw lines IH]; intros st st' w w' Hst H; simpl in H.
  - now injection H as <- _.
  - destruct (process_line resolve format_name st raw w) as [[st1|e] w1] eqn:P;
      [|discriminate].
    eapply IH; [|exact H]. eapply process_line_no_empty_identifier; eauto.
Qed.

End DeckInvariant.

(** X8.  No deck that [parse_deck_list] returns holds an empty identifier,
    whatever the resolver answers: an empty answer is dropped like a
    missing one. *)
Theorem parsed_identifiers_are_not_empty :
  forall (World : Type)
         (resolve : string -> option string -> World -> option string * World)
         (format_name : option string) (deck_list : string) (w w' : World)
         (main_deck extra_deck side_deck : list string),
    parse_deck_list resolve format_name deck_list w
    = (Ok (main_deck, extra_deck, side_deck), w') ->
    Forall (fun id => id <> "") main_deck
    /\ Forall (fun id => id <> "") extra_deck
    /\ Forall (fun id => id <> "") side_deck.
Proof.
  intros World resolve format_name deck_list w w' m e s.
  unfold parse_deck_list.
  destruct (parse_lines resolve format_name (PyStr.splitlines deck_list)
                        initial_state w) as [[st|x] w1] eqn:H;
    [|discriminate].
  intro E. injection E as <- <- <- _.
  assert (S : forall sec, Forall (fun id => id <> "") (deck_of sec st)).
  { eapply parse_lines_no_empty_identifier; [|exact H].
    intros []; constructor. }
  exact (conj (S Main) (conj (S Extra) (S Side))).
Qed.

(** A resolver that knows no card but answers the empty text. *)
Lemma parsed_identifiers_are_not_empty_witness :
  parse_deck_list (fun _ _ (w : unit) => (Some "", w)) None
                  "2 Pot of Greed" tt
  = (Ok ([], [], []), tt)
  /\ Forall (fun id : string => id <> "") [].
Proof.
  split; [reflexivity|].
  exact (proj1 (parsed_identifiers_are_not_empty
                  unit (fun _ _ w => (Some "", w)) None "2 Pot of Greed"
                  tt tt [] [] [] eq_refl)).
Defined.

(** ** The requests of a run *)

Lemma get_card_id_logged (answer : string -> http_outcome)
      (repr_container : pyval -> string)
      (card_name : string) (format_name : option string) (log : list string) :
  snd (get_card_id (logged_network answer) repr_container
                   card_name format_name log)
  = (log ++ [lookup_url card_name format_name])%list.
Proof. reflexivity. Qed.

Lemma process_line_no_card {World : Type}
      (resolve : string -> option string -> World -> option string * World)
      (format_name : option string) (st : parser_state) (raw : string)
      (w : World) :
  card_fields (PyStr.strip raw) = None ->
  exists st', process_line resolve format_name st raw w = (Ok st', w).
Proof.
  intro H. unfold process_line. rewrite H.
  repeat match goal with
         | |- context [if ?b then _ else _] => destruct b; eauto
         end.
Qed.

(** X9.  When the loop returns, the requests of the run are those of its
    card lines, one for each, in the order of the lines, at the URL of the
    card name: a name that comes twice is asked twice, a quantity asks once
    whatever its value, and no other line asks anything. *)
Theorem requests_follow_card_lines :
  forall (answer : string -> http_outcome) (repr_container : pyval -> string)
         (format_name : option string) (lines : list string)
         (st st' : parser_state) (log log' : list string),
    parse_lines (get_card_id (logged_network answer) repr_container)
                format_name lines st log
    = (Ok st', log') ->
    log' = (log ++ map (fun card_name => lookup_url card_name format_name)
                       (card_names lines))%list.
Proof.
  intros answer repr_container format_name lines.
  induction lines as [|raw lines IH]; intros st st' log log' H.
  - simpl in H. injection H as _ <-. simpl. now rewrite app_nil_r.
  - cbn [parse_lines] in H. cbn [card_names flat_map]. fold (card_names lines).
    destruct (card_fields (PyStr.strip raw)) as [[[q name]|e]|] eqn:Hcard.
    + rewrite (process_line_card _ _ _ _ _ _ _ Hcard) in H.
      rewrite (surjective_pairing
                 (get_card_id (logged_network answer) repr_container
                              name format_name log)) in H.
      rewrite get_card_id_logged in H. cbn [fst snd] in H.
      apply IH in H. rewrite H. cbn [map app]. rewrite <- app_assoc.
      reflexivity.
    + rewrite (process_line_raise _ _ _ _ _ _ Hcard) in H. discriminate.
    + destruct (process_line_no_card
                  (get_card_id (logged_network answer) repr_container)
                  format_name st raw log Hcard) as (st1 & E).
      rewrite E in H. apply IH in H. exact H.
Qed.

Lemma requests_follow_card_lines_witness :
  parse_lines (get_card_id (logged_network (fun _ => GetRaises))
                           (fun _ => ""))
              None ["#main"; "3 A"; "B"; "0x A"] initial_state []
  = (Ok initial_state,
     ["https://db.ygoprodeck.com/api/v7/cardinfo.php?name=A";
      "https://db.ygoprodeck.com/api/v7/cardinfo.php?name=A"])
  /\ ["https://db.ygoprodeck.com/api/v7/cardinfo.php?name=A";
      "https://db.ygoprodeck.com/api/v7/cardinfo.php?name=A"]
     = ([] ++ map (fun card_name => lookup_url card_name None)
                  (card_names ["#main"; "3 A"; "B"; "0x A"]))%list.
Proof.
  split; [reflexivity|].
  exact (requests_follow_card_lines
           (fun _ => GetRaises) (fun _ => "") None
           ["#main"; "3 A"; "B"; "0x A"] initial_state initial_state [] _
           eq_refl).
Defined.

(** ** Trimming *)

Lemma lstrip_fixed (s : string) :
  stops PyChar.isspace s -> PyStr.lstrip s = s.
Proof. destruct s as [|c s]; simpl; [reflexivity | now intros ->]. Qed.

Lemma rstrip_idempotent (s : string) :
  PyStr.rstrip (PyStr.rstrip s) = PyStr.rstrip s.
Proof.
  induction s as [|c s IH]; [reflexivity|]. cbn [PyStr.rstrip].
  destruct (PyStr.is_empty (PyStr.rstrip s) && PyChar.isspace c) eqn:E;
    [reflexivity|].
  cbn [PyStr.rstrip]. now rewrite IH, E.
Qed.

Lemma strip_idempotent (s : string) :
  PyStr.strip (PyStr.strip s) = PyStr.strip s.
Proof.
  unfold PyStr.strip at 1.
  rewrite (lstrip_fixed _ (strip_stops s)).
  unfold PyStr.strip. apply rstrip_idempotent.
Qed.

Lemma rstrip_append (a b : string) :
  b <> "" -> PyStr.rstrip b = b -> PyStr.rstrip (a ++ b) = a ++ b.
Proof.
  intros Hne Hb. induction a as [|c a IH]; [exact Hb|].
  cbn [append PyStr.rstrip]. rewrite IH.
  destruct a, b; try congruence; reflexivity.
Qed.

Lemma rstrip_empty (s : string) :
  PyStr.rstrip s = "" -> PyStr.forallb PyChar.isspace s = true.
Proof.
  induction s as [|c s IH]; [reflexivity|]. cbn [PyStr.rstrip PyStr.forallb].
  destruct (PyStr.is_empty (PyStr.rstrip s) && PyChar.isspace c) eqn:E;
    [|discriminate].
  intros _. apply andb_prop in E as [E1 E2]. rewrite E2. apply IH.
  now destruct (PyStr.rstrip s).
Qed.

Lemma lstrip_empty (s : string) :
  PyStr.lstrip s = "" -> PyStr.forallb PyChar.isspace s = true.
Proof.
  induction s as [|c s IH]; [reflexivity|]. simpl.
  destruct (PyChar.isspace c); [exact IH | discriminate].
Qed.

Lemma strip_empty (s : string) :
  PyStr.strip s = "" -> PyStr.forallb PyChar.isspace s = true.
Proof.
  unfold PyStr.strip. intro H. apply rstrip_empty in H.
  apply lstrip_empty. pose proof (lstrip_stops s) as Hs.
  destruct (PyStr.lstrip s) as [|c t]; [reflexivity|].
  simpl in *. rewrite Hs in H. discriminate.
Qed.

(** What [rstrip] returns does not end with blanks. *)
Lemma rstrip_no_blank_suffix (s a b : string) :
  PyStr.rstrip s = a ++ b -> b <> "" ->
  PyStr.forallb PyChar.isspace b = false.
Proof.
  revert a b. induction s as [|c s IH]; intros a b H Hb.
  - destruct a, b; try discriminate. congruence.
  - cbn [PyStr.rstrip] in H.
    destruct (PyStr.is_empty (PyStr.rstrip s) && PyChar.isspace c) eqn:E.
    + destruct a, b; try discriminate. congruence.
    + destruct a as [|x a].
      * simpl in H. subst b. cbn [PyStr.forallb].
        destruct (PyStr.rstrip s) as [|y t] eqn:R.
        -- simpl in E. now rewrite E.
        -- rewrite (IH "" (String y t) eq_refl) by discriminate.
           apply andb_false_r.
      * simpl in H. injection H as _ H. now apply (IH a).
Qed.

(** ** The output file name, again *)

(** X10.  Naming is idempotent: the name that [main] gives to a file,
    typed again as it is, comes out unchanged. *)
Theorem output_file_name_idempotent :
  forall typed : string,
    output_file_name (output_file_name typed) = output_file_name typed.
Proof.
  intro typed.
  assert (Hstrip : PyStr.strip (output_file_name typed)
                   = output_file_name typed).
  { unfold output_file_name.
    destruct (PyStr.endswith (PyStr.strip typed) ".ydk");
      cbn [negb]; [apply strip_idempotent|].
    unfold PyStr.strip at 1. rewrite lstrip_fixed.
    - now apply rstrip_append.
    - pose proof (strip_stops typed) as Hs.
      now destruct (PyStr.strip typed). }
  assert (Hends : ends_with (PyStr.strip (output_file_name typed)) ".ydk").
  { rewrite Hstrip. unfold output_file_name.
    destruct (PyStr.endswith (PyStr.strip typed) ".ydk") eqn:E; cbn [negb].
    - now apply endswith_iff.
    - now exists (PyStr.strip typed). }
  rewrite (proj1 (output_file_name_cases (output_file_name typed)) Hends).
  exact Hstrip.
Qed.

(** ** The card name *)

Lemma name_and_end_split (s : string) (g m : groups) :
  name_and_end s g = Some m ->
  exists name rest,
    s = name ++ rest /\ m = (3%nat, name) :: g /\ name <> ""
    /\ (rest = "" \/ rest = PyStr.LF).
Proof.
  unfold name_and_end. intro H.
  apply rep_inv in H as (a & b & -> & _ & Hlo & H).
  destruct (PyStr.is_empty b || String.eqb b PyStr.LF) eqn:E; [|discriminate].
  injection H as <-. rewrite consumed_append.
  exists a, b. repeat split.
  - destruct a; [simpl in Hlo; lia | discriminate].
  - apply orb_prop in E as [E | E].
    + left. now destruct b.
    + right. now apply String.eqb_eq.
Qed.

Lemma after_spaces_split (g m : groups) (s : string) :
  after_spaces g s = Some m ->
  exists before name rest,
    s = before ++ name ++ rest /\ m = (3%nat, name) :: g /\ name <> ""
    /\ (rest = "" \/ rest = PyStr.LF).
Proof.
  unfold after_spaces. intro H.
  apply rep_inv in H as (a & b & -> & _ & _ & H).
  apply name_and_end_split in H as (name & rest & -> & H).
  exists a, name, rest. tauto.
Qed.

Lemma after_digits_split (g m : groups) (s : string) :
  after_digits g s = Some m ->
  exists before name rest,
    s = before ++ name ++ rest /\ m = (3%nat, name) :: g /\ name <> ""
    /\ (rest = "" \/ rest = PyStr.LF).
Proof.
  unfold after_digits. destruct s as [|c s].
  - apply after_spaces_split.
  - destruct (PyChar.is_xX c); [|apply after_spaces_split].
    destruct (after_spaces g s) as [m'|] eqn:E; [|apply after_spaces_split].
    intro H. injection H as <-.
    apply after_spaces_split in E as (before & name & rest & -> & H).
    exists (String c before), name, rest. tauto.
Qed.

(** Group 3 of a match is the end of the line, or its end but for a final
    line feed. *)
Lemma card_regex_name (line : string) (m : groups) :
  re_match card_regex line = Some m ->
  exists before name rest,
    line = before ++ name ++ rest /\ group m 3 = Some name /\ name <> ""
    /\ (rest = "" \/ rest = PyStr.LF).
Proof.
  rewrite card_regex_branches.
  destruct (left_branch line) as [m'|] eqn:L.
  - intro H. injection H as <-. unfold left_branch in L.
    apply rep_inv in L as (ws & s1 & -> & _ & _ & L).
    apply rep_inv in L as (ds & s2 & -> & _ & _ & L).
    apply after_digits_split in L as (before & name & rest & -> & -> & H).
    exists (ws ++ ds ++ before), name, rest.
    rewrite !append_assoc. tauto.
  - unfold right_branch. intro R.
    apply rep_inv in R as (ws & s1 & -> & _ & _ & R).
    destruct s1 as [|c s1]; [discriminate|].
    destruct (PyChar.is_xX c); [|discriminate].
    apply rep_inv in R as (ds & s2 & -> & _ & _ & R).
    apply after_spaces_split in R as (before & name & rest & -> & -> & H).
    exists (ws ++ String c (ds ++ before)), name, rest.
    rewrite !append_assoc. cbn [append]. rewrite !append_assoc. tauto.
Qed.

(** X11.  The card name of a card line is never empty and has no blank at
    either end: the resolver is asked for a name worth looking up. *)
Theorem card_name_is_trimmed_and_not_empty :
  forall (raw : string) (quantity : Z) (card_name : string),
    card_fields (PyStr.strip raw) = Some (Ok (quantity, card_name)) ->
    card_name <> ""
    /\ PyStr.strip card_name = card_name
    /\ stops PyChar.isspace card_name.
Proof.
  intros raw quantity card_name H. unfold card_fields in H.
  destruct (re_match card_regex (PyStr.strip raw)) as [m|] eqn:M;
    [|discriminate].
  apply card_regex_name in M as (before & name & rest & Hline & Hg & Hne & Hr).
  rewrite Hg in H.
  destruct (py_int (py_or (group m 1) (group m 2))) as [q|e];
    [|discriminate].
  cbn [bind] in H. injection H as _ <-.
  split; [|split; [apply strip_idempotent | apply strip_stops]].
  intro Hempty. apply strip_empty in Hempty.
  unfold PyStr.strip in Hline.
  destruct Hr as [-> | ->].
  - rewrite append_nil_r in Hline.
    apply rstrip_no_blank_suffix in Hline; congruence.
  - rewrite <- append_assoc in Hline.
    apply rstrip_no_blank_suffix in Hline; discriminate.
Qed.

Lemma card_name_is_trimmed_and_not_empty_witness :
  ("Pot of Greed" <> ""
   /\ PyStr.strip "Pot of Greed" = "Pot of Greed")
  /\ card_fields (PyStr.strip " 2x   Pot of Greed  ")
     = Some (Ok (2, "Pot of Greed")).
Proof.
  split; [|reflexivity].
  destruct (card_name_is_trimmed_and_not_empty
              " 2x   Pot of Greed  " 2 "Pot of Greed" eq_refl)
    as (H1 & H2 & _).
  split; [exact H1 | exact H2].
Defined.

(** ** The command line, again *)

Lemma read_deck_list_no_done (lines : list string) :
  Forall (fun line =>
            String.eqb (PyStr.lower (PyStr.strip line)) "done" = false) lines ->
  forall deck_list, read_deck_list lines deck_list = Raise EOFError.
Proof.
  induction 1 as [|line lines Hline Hlines IH]; intro deck_list; simpl;
    [reflexivity|].
  now rewrite Hline, IH.
Qed.

(** X12.  When the input ends before the file name is typed (no line at
    all, no line that reads [done], or nothing after it), [main] raises
    [EOFError]: no request has been made and no file is written. *)
Theorem main_input_ends_early :
  forall (World : Type)
         (requests_get : string -> World -> http_outcome * World)
         (repr_container : pyval -> string) (abspath : string -> string)
         (typed_format : string) (lines : list string)
         (w : World) (fs : filesystem),
    Forall (fun line =>
              String.eqb (PyStr.lower (PyStr.strip line)) "done" = false)
           lines ->
    main requests_get repr_container abspath [] w fs = (Raise EOFError, w)
    /\ main requests_get repr_container abspath (typed_format :: lines) w fs
       = (Raise EOFError, w)
    /\ forall typed_done : string,
        String.eqb (PyStr.lower (PyStr.strip typed_done)) "done" = true ->
        main requests_get repr_container abspath
             (typed_format :: lines ++ [typed_done]) w fs
        = (Raise EOFError, w).
Proof.
  intros World requests_get repr_container abspath typed_format lines w fs
         Hlines.
  split; [reflexivity|]. split.
  - unfold main. now rewrite (read_deck_list_no_done lines Hlines).
  - intros typed_done Hdone. unfold main.
    now rewrite (read_deck_list_until_done lines typed_done [] Hlines Hdone).
Qed.

Lemma main_input_ends_early_witness :
  main two_card_network (fun _ => "") (fun p => p)
       ["TCG"; "#main"; "1x Pot of Greed"] tt empty_filesystem
  = (Raise EOFError, tt).
Proof.
  apply (main_input_ends_early
           unit two_card_network (fun _ => "") (fun p => p)
           "TCG" ["#main"; "1x Pot of Greed"] tt empty_filesystem).
  repeat constructor.
Defined.

Lemma splitlines_single (line : string) :
  line <> "" ->
  PyStr.forallb (fun c => negb (PyChar.islinebreak c)) line = true ->
  PyStr.splitlines line = [line].
Proof.
  induction line as [|c line IH]; [congruence|]. intros _ H.
  cbn [PyStr.forallb] in H. apply andb_prop in H as [Hc Hl].
  apply negb_true_iff in Hc. cbn [PyStr.splitlines]. rewrite Hc.
  destruct line as [|d line]; [reflexivity|].
  now rewrite IH by (discriminate || exact Hl).
Qed.

(** Joining typed lines and splitting the text again gives the lines back,
    but for an empty last line. *)
Lemma splitlines_join_typed (lines : list string) :
  Forall (fun line =>
            PyStr.forallb (fun c => negb (PyChar.islinebreak c)) line = true)
         lines ->
  PyStr.splitlines (PyStr.join PyStr.LF lines) = lines
  \/ exists lines',
      lines = (lines' ++ [""])%list
      /\ PyStr.splitlines (PyStr.join PyStr.LF lines) = lines'.
Proof.
  induction 1 as [|x lines Hx Hlines IH]; [now left|].
  destruct lines as [|y lines].
  - cbn [PyStr.join]. destruct x as [|c x].
    + right. now exists [].
    + left. now apply splitlines_single.
  - change (PyStr.join PyStr.LF (x :: y :: lines))
      with (x ++ PyStr.LF ++ PyStr.join PyStr.LF (y :: lines)).
    rewrite splitlines_line by exact Hx.
    destruct IH as [-> | (lines' & E & ->)]; [now left|].
    right. exists (x :: lines'). now rewrite E.
Qed.

Lemma parse_lines_typed {World : Type}
      (resolve : string -> option string -> World -> option string * World)
      (format_name : option string) (lines : list string)
      (st : parser_state) (w : World) :
  Forall (fun line =>
            PyStr.forallb (fun c => negb (PyChar.islinebreak c)) line = true)
         lines ->
  parse_lines resolve format_name
              (PyStr.splitlines (PyStr.join PyStr.LF lines)) st w
  = parse_lines resolve format_name lines st w.
Proof.
  intro H. destruct (splitlines_join_typed lines H) as [-> | (l & -> & ->)];
    [reflexivity|].
  symmetry. apply parse_lines_blank_end.
Qed.

(** X13.  A run of [main] on typed lines that hold no line boundary: the
    lines before the first [done] are parsed one by one, as they were
    typed, with the trimmed format.  When that loop returns, the three decks
    are written to the file named by the line after [done]; when it raises,
    [main] raises the same and writes nothing; the lines after the file
    name are not read. *)
Theorem main_parses_typed_lines_and_writes :
  forall (World : Type)
         (requests_get : string -> World -> http_outcome * World)
         (repr_container : pyval -> string) (abspath : string -> string)
         (typed_format typed_done typed_name : string)
         (lines more : list string) (w w' : World) (fs : filesystem)
         (r : result parser_state),
    Forall (fun line =>
              String.eqb (PyStr.lower (PyStr.strip line)) "done" = false)
           lines ->
    Forall (fun line =>
              PyStr.forallb (fun c => negb (PyChar.islinebreak c)) line = true)
           lines ->
    String.eqb (PyStr.lower (PyStr.strip typed_done)) "done" = true ->
    parse_lines (get_card_id requests_get repr_container)
                (Some (PyStr.strip typed_format)) lines initial_state w
    = (r, w') ->
    main requests_get repr_container abspath
         (typed_format :: lines ++ typed_done :: typed_name :: more) w fs
    = match r with
      | Ok st =>
          (fs' <- write_ydk_file (abspath (output_file_name typed_name))
                    (main_deck st) (extra_deck st) (side_deck st) fs ;;
           Ok (abspath (output_file_name typed_name), fs'), w')
      | Raise e => (Raise e, w')
      end.
Proof.
  intros World requests_get repr_container abspath typed_format typed_done
         typed_name lines more w w' fs r Hlines Hbreak Hdone E.
  rewrite (main_run _ _ _ _ _ _ _ _ _ _ Hlines Hdone).
  unfold parse_deck_list. rewrite parse_lines_typed by exact Hbreak.
  rewrite E. now destruct r.
Qed.

Lemma main_parses_typed_lines_and_writes_witness :
  exists fs' : filesystem,
    main two_card_network (fun _ => "") (fun p => "/decks/" ++ p)
         [" "; "2 Pot of Greed"; ""; "done"; "MyDeck"; "ignored"]
         tt empty_filesystem
    = (Ok ("/decks/MyDeck.ydk", fs'), tt)
    /\ file fs' "/decks/MyDeck.ydk"
       = Some ("#main" ++ PyStr.LF ++ "55144522" ++ PyStr.LF
               ++ "55144522" ++ PyStr.LF).
Proof.
  pose proof (main_parses_typed_lines_and_writes
                unit two_card_network (fun _ => "") (fun p => "/decks/" ++ p)
                " " "done" "MyDeck" ["2 Pot of Greed"; ""] ["ignored"]
                tt tt empty_filesystem
                (Ok (mkState ["55144522"; "55144522"] [] [] Main)))
    as Hmain.
  eexists. split; [apply Hmain | reflexivity].
  - repeat constructor.
  - repeat constructor.
  - reflexivity.
  - reflexivity.
Defined.

(** ** Files and decks *)

Lemma read_ydk_text (m e s : list string) :
  Forall (fun id => plain_line id = true) m ->
  Forall (fun id => plain_line id = true) e ->
  Forall (fun id => plain_line id = true) s ->
  read_ydk (ydk_text m e s) = (m, e, s).
Proof.
  intros Hm He Hs. unfold read_ydk.
  rewrite ydk_text_lines by assumption.
  rewrite read_lines_cons.
  cbn [PyStr.is_empty ydk_header String.eqb Ascii.eqb Bool.eqb].
  unfold initial_state, set_section.
  cbn [main_deck extra_deck side_deck].
  rewrite read_main_lines by exact Hm.
  rewrite (read_block_lines _ _ "#extra" Extra e eq_refl eq_refl He).
  rewrite <- (app_nil_r (block_lines "!side" s)).
  rewrite (read_block_lines _ _ "!side" Side s eq_refl eq_refl Hs).
  cbn [read_lines app].
  destruct e as [|x e], s as [|y s]; unfold set_section;
    rewrite ?add_cards_spec; reflexivity.
Qed.

(** X14.  The file tells the decks apart: two triples of decks of plain
    identifiers that differ, in an identifier, in the order, in a repetition
    or in the section, are never written as the same text. *)
Theorem different_decks_different_files :
  forall main_deck extra_deck side_deck main_deck' extra_deck' side_deck'
         : list string,
    Forall (fun id => plain_line id = true)
           (main_deck ++ extra_deck ++ side_deck) ->
    Forall (fun id => plain_line id = true)
           (main_deck' ++ extra_deck' ++ side_deck') ->
    (main_deck, extra_deck, side_deck)
    <> (main_deck', extra_deck', side_deck') ->
    ydk_text main_deck extra_deck side_deck
    <> ydk_text main_deck' extra_deck' side_deck'.
Proof.
  intros m e s m' e' s' H H' Hneq Heq. apply Hneq.
  apply Forall_app in H as [Hm H]. apply Forall_app in H as [He Hs].
  apply Forall_app in H' as [Hm' H']. apply Forall_app in H' as [He' Hs'].
  rewrite <- (read_ydk_text m e s), <- (read_ydk_text m' e' s') by assumption.
  now rewrite Heq.
Qed.

Lemma different_decks_different_files_witness :
  (["55144522"; "83764719"], @nil string, @nil string)
  <> (["55144522"], ["83764719"], [])
  /\ ydk_text ["55144522"; "83764719"] [] []
     <> ydk_text ["55144522"] ["83764719"] [].
Proof.
  split; [discriminate|].
  apply (different_decks_different_files
           ["55144522"; "83764719"] [] [] ["55144522"] ["83764719"] []);
    [repeat constructor | repeat constructor | discriminate].
Defined.

(** ** Where the identifiers come from *)

Section Provenance.

Context {World : Type}.
Variable resolve : string -> option string -> World -> option string * World.
Variable format_name : option string.
Variable P : string -> Prop.
Hypothesis answers :
  forall card_name w id w',
    resolve card_name format_name w = (Some id, w') -> P id.

Lemma process_line_answers (st st' : parser_state) (raw : string)
      (w w' : World) :
  (forall sec, Forall P (deck_of sec st)) ->
  process_line resolve format_name st raw w = (Ok st', w') ->
  forall sec, Forall P (deck_of sec st').
Proof.
  intros Hst. unfold process_line.
  repeat match goal with
         | |- context [if ?b then _ else _] => destruct b
         end;
    try (intro H; injection H as <- _; try exact Hst;
         intros []; apply (Hst _)).
  destruct (card_fields (PyStr.strip raw)) as [[[q name]|e]|];
    [ | discriminate | intro H; injection H as <- _; exact Hst ].
  destruct (resolve name format_name w) as [[id|] w1] eqn:R;
    intro H; injection H as <- _; [|exact Hst].
  destruct (PyStr.truthy id); [|exact Hst].
  destruct (iter_append_card id st (Z.to_nat q)) as (_ & Hdeck & Hother).
  intro sec. destruct (section_eq_dec sec (current_section st)) as [-> | N].
  - rewrite Hdeck. apply Forall_app. split; [apply Hst|].
    apply Forall_forall. intros y Hy. apply repeat_spec in Hy. subst y.
    eapply answers; eauto.
  - rewrite (Hother _ N). apply Hst.
Qed.

Lemma parse_lines_answers (lines : list string) :
  forall st st' w w',
    (forall sec, Forall P (deck_of sec st)) ->
    parse_lines resolve format_name lines st w = (Ok st', w') ->
    forall sec, Forall P (deck_of sec st').
Proof.
  induction lines as [|raw lines IH]; intros st st' w w' Hst H; simpl in H.
  - now injection H as <- _.
  - destruct (process_line resolve format_name st raw w) as [[st1|e] w1] eqn:E;
      [|discriminate].
    eapply IH; [|exact H]. eapply process_line_answers; eauto.
Qed.

End Provenance.

(** X15.  The decks that [parse_deck_list] returns hold nothing but
    answers of the resolver: a property that every identifier returned by
    the resolver has is a property of every identifier of the three
    decks. *)
Theorem identifiers_come_from_the_resolver :
  forall (World : Type)
         (resolve : string -> option string -> World -> option string * World)
         (format_name : option string) (P : string -> Prop)
         (deck_list : string) (w w' : World)
         (main_deck extra_deck side_deck : list string),
    (forall card_name w0 id w1,
        resolve card_name format_name w0 = (Some id, w1) -> P id) ->
    parse_deck_list resolve format_name deck_list w
    = (Ok (main_deck, extra_deck, side_deck), w') ->
    Forall P main_deck /\ Forall P extra_deck /\ Forall P side_deck.
Proof.
  intros World resolve format_name P deck_list w w' m e s Hanswers.
  unfold parse_deck_list.
  destruct (parse_lines resolve format_name (PyStr.splitlines deck_list)
                        initial_state w) as [[st|x] w1] eqn:H;
    [|discriminate].
  intro E. injection E as <- <- <- _.
  assert (S : forall sec, Forall P (deck_of sec st)).
  { eapply parse_lines_answers; [exact Hanswers | | exact H].
    intros []; constructor. }
  exact (conj (S Main) (conj (S Extra) (S Side))).
Qed.

Lemma identifiers_come_from_the_resolver_witness :
  parse_deck_list stub_resolver None
                  ("3 Pot of Greed" ++ PyStr.LF ++ "2 Unknown") tt
  = (Ok (["55144522"; "55144522"; "55144522"], [], []), tt)
  /\ Forall (fun id => id = "55144522" \/ id = "83764719")
            ["55144522"; "55144522"; "55144522"].
Proof.
  split; [reflexivity|].
  refine (proj1 (identifiers_come_from_the_resolver
                   unit stub_resolver None
                   (fun id => id = "55144522" \/ id = "83764719")
                   ("3 Pot of Greed" ++ PyStr.LF ++ "2 Unknown") tt tt
                   ["55144522"; "55144522"; "55144522"] [] [] _ eq_refl)).
  intros card_name w0 id w1. unfold stub_resolver.
  destruct (String.eqb card_name "Pot of Greed");
    [intro E; injection E as <- _; now left|].
  destruct (String.eqb card_name "Monster Reborn");
    [intro E; injection E as <- _; now right | discriminate].
Defined.

(** ** The files of a run *)

(** X16.  Whatever is typed, a run of [main] that ends well has changed one
    file only, the one whose path it reports: that path is the absolute
    path of a typed name with its extension, the file starts with the
    [#main] header, every other file is as before, and so are the paths
    that can be written. *)
Theorem main_changes_one_file :
  forall (World : Type)
         (requests_get : string -> World -> http_outcome * World)
         (repr_container : pyval -> string) (abspath : string -> string)
         (stdin : list string) (w w' : World) (fs fs' : filesystem)
         (output_path : string),
    main requests_get repr_container abspath stdin w fs
    = (Ok (output_path, fs'), w') ->
    (exists typed_name,
        In typed_name stdin
        /\ output_path = abspath (output_file_name typed_name))
    /\ (exists rest,
           file fs' output_path = Some ("#main" ++ PyStr.LF ++ rest))
    /\ (forall path, path <> output_path -> file fs' path = file fs path)
    /\ can_write fs' = can_write fs.
Proof.
  intros World requests_get repr_container abspath stdin w w' fs fs'
         output_path H.
  unfold main in H.
  destruct stdin as [|typed_format stdin1]; [discriminate|].
  destruct (read_deck_list stdin1 []) as [[lines stdin2]|e] eqn:R;
    [|discriminate].
  destruct stdin2 as [|typed_name stdin3]; [discriminate|].
  destruct (parse_deck_list (get_card_id requests_get repr_container)
                            (Some (PyStr.strip typed_format))
                            (PyStr.join PyStr.LF lines) w)
    as [[[[m e] s]|err] w1]; [|discriminate].
  unfold write_ydk_file in H.
  destruct (can_write fs (abspath (output_file_name typed_name)));
    [|discriminate].
  cbn [bind] in H. injection H as <- <- <-.
  assert (Hin : forall acc stdin lines rest,
             read_deck_list stdin acc = Ok (lines, rest) ->
             forall x, In x rest -> In x stdin).
  { clear. intros acc stdin. revert acc.
    induction stdin as [|line stdin IH]; intros acc lines rest H x Hx;
      simpl in H; [discriminate|].
    destruct (String.eqb (PyStr.lower (PyStr.strip line)) "done").
    - injection H as _ <-. now right.
    - right. eapply IH; eauto. }
  repeat split.
  - exists typed_name. split; [|reflexivity].
    right. eapply Hin; [exact R | now left].
  - cbn [file store]. rewrite String.eqb_refl, ydk_text_blocks.
    eexists. reflexivity.
  - intros path Hpath. cbn [file store].
    destruct (String.eqb_spec path (abspath (output_file_name typed_name)));
      [contradiction | reflexivity].
Qed.

Lemma main_changes_one_file_witness :
  exists rest,
    file (store "/decks/MyDeck.ydk" (ydk_text ["55144522"] [] [])
                empty_filesystem) "/decks/MyDeck.ydk"
    = Some ("#main" ++ PyStr.LF ++ rest).
Proof.
  destruct (main_changes_one_file
              unit two_card_network (fun _ => "") (fun p => "/decks/" ++ p)
              [""; "1 Pot of Greed"; "done"; "MyDeck"] tt tt
              empty_filesystem
              (store "/decks/MyDeck.ydk" (ydk_text ["55144522"] [] [])
                     empty_filesystem)
              "/decks/MyDeck.ydk" eq_refl)
    as (_ & H & _).
  exact H.
Defined.
